(** * EDDM (Early Drift Detection Method): a shallow embedding

    Source: [frouros/supervised/ddm_based/eddm.py].

    Conventions of the model.
    - Python [int] is [Z].
    - A Python [float] that comes from outside, or that is computed from such
      a value, is a [float]: nan, one of the two infinities, or a finite
      number.  These are the three values of the configuration (alpha, beta,
      level), the two thresholds and the ratio of line 434.  Comparisons
      with nan are false, as in Python; the arithmetic of the special values
      is that of IEEE 754.
    - The running statistics (distances, mean, variance, standard deviation)
      are computed by [update] from counts of instances; they are finite
      and kept as rationals [Q].
    - Finite numbers are exact rationals: rounding, overflow and the sign of
      a zero are outside the model, so nothing here speaks of the digits of
      a computed float.
    - [np.sqrt] is a parameter of the development.
    - A method that mutates [self] and may raise is a computation in the
      monad [M]: it maps the object to the object as the call leaves it
      (also when it raises: Python does not roll attributes back) and to
      either an exception or a result.
    - The base classes [DDMBaseConfig] and [DDMBasedEstimator] are not part
      of the sources at hand: their hooks are parameters, their attributes
      are fields of [DDMBasedEstimator]. *)

From Stdlib Require Import String ZArith QArith Qfield Lqa Lia Bool List.
Import ListNotations.

Local Open Scope Q_scope.

(** ** Exceptions *)

Inductive Exn : Type :=
| ValueError (msg : string)
| NotFittedError
| EmptyBufferError
| IndexError (msg : string)
| AttributeError (attr : string)
| ZeroDivisionError.

(** The specification calls the [ValueError] of a configuration setter a
    ConfigurationError. *)
Definition ConfigurationError (e : Exn) : Prop := exists msg, e = ValueError msg.

Definition Qltb (x y : Q) : bool := negb (Qle_bool y x).

(** ** Floats *)

Inductive float : Type :=
| NaN
| NegInf
| PosInf
| Fin (q : Q).

(* [a < b] *)
Definition float_ltb (a b : float) : bool :=
  match a, b with
  | NaN, _ => false
  | _, NaN => false
  | NegInf, NegInf => false
  | NegInf, _ => true
  | PosInf, _ => false
  | Fin _, NegInf => false
  | Fin _, PosInf => true
  | Fin x, Fin y => Qltb x y
  end.

(* [a <= b] *)
Definition float_leb (a b : float) : bool :=
  match a, b with
  | NaN, _ => false
  | _, NaN => false
  | NegInf, _ => true
  | PosInf, PosInf => true
  | PosInf, _ => false
  | Fin _, NegInf => false
  | Fin _, PosInf => true
  | Fin x, Fin y => Qle_bool x y
  end.

(* [a > b] and [a >= b] *)
Definition float_gtb (a b : float) : bool := float_ltb b a.
Definition float_geb (a b : float) : bool := float_leb b a.

Definition float_le (a b : float) : Prop := float_leb a b = true.

Definition float_inf (positive : bool) : float := if positive then PosInf else NegInf.

(* [a + b] *)
Definition float_add (a b : float) : float :=
  match a, b with
  | NaN, _ => NaN
  | _, NaN => NaN
  | NegInf, PosInf => NaN
  | PosInf, NegInf => NaN
  | NegInf, _ => NegInf
  | PosInf, _ => PosInf
  | Fin _, NegInf => NegInf
  | Fin _, PosInf => PosInf
  | Fin x, Fin y => Fin (x + y)
  end.

(* an infinity times a finite number: nan for 0, else the product of the signs *)
Definition inf_times (positive : bool) (x : Q) : float :=
  if Qeq_bool x 0 then NaN else float_inf (Bool.eqb positive (Qltb 0 x)).

(* [a * b] *)
Definition float_mul (a b : float) : float :=
  match a, b with
  | NaN, _ => NaN
  | _, NaN => NaN
  | NegInf, NegInf => PosInf
  | NegInf, PosInf => NegInf
  | NegInf, Fin y => inf_times false y
  | PosInf, NegInf => NegInf
  | PosInf, PosInf => PosInf
  | PosInf, Fin y => inf_times true y
  | Fin x, NegInf => inf_times false x
  | Fin x, PosInf => inf_times true x
  | Fin x, Fin y => Fin (x * y)
  end.

(** The quotient of two numpy floats: a division by zero gives nan or an
    infinity, with a warning, and does not raise. *)
Definition np_divide (x d : float) : float :=
  match x, d with
  | NaN, _ => NaN
  | _, NaN => NaN
  | Fin a, Fin b =>
      if Qeq_bool b 0
      then (if Qeq_bool a 0 then NaN else float_inf (Qltb 0 a))
      else Fin (a / b)
  | Fin _, _ => Fin 0
  | PosInf, Fin b => float_inf (Qle_bool 0 b)
  | NegInf, Fin b => float_inf (Qltb b 0)
  | _, _ => NaN
  end.

(** ** Configuration: [EDDMConfig] *)

Module Config.

Record EDDMConfig : Type := mkConfig {
  alpha : float;
  beta : float;
  level : float;
  min_num_misclassified_instances : Z;
  min_num_instances : Z
}.

(** Property setters.  Each returns the value it stores, or raises. *)

(* lines 53-60 *)
Definition alpha_setter (value : float) : Exn + float := inr value.

(* lines 71-83; [self_alpha] is [self.alpha], read at line 81 *)
Definition beta_setter (self_alpha value : float) : Exn + float :=
  if float_leb value (Fin 0) then inl (ValueError "beta must be greater than 0.0.")
  else if float_geb value self_alpha then inl (ValueError "beta must be less than alpha.")
  else inr value.

(* lines 94-104 *)
Definition level_setter (value : float) : Exn + float :=
  if float_leb value (Fin 0) then inl (ValueError "drift level must be greater than 0.0.")
  else inr value.

(* lines 115-127 *)
Definition min_num_misclassified_instances_setter (value : Z) : Exn + Z :=
  if (value <? 0)%Z
  then inl (ValueError "min_num_misclassified_instances must be greater or equal than 0.")
  else inr value.

(** Modelled from the spec: [DDMBaseConfig.__init__] is not among the
    sources; section 4.1 gives its rule, a minimum count is at least 0, and
    the failure is a ConfigurationError. *)
Definition DDMBaseConfig_init (min_num_instances : Z) : Exn + Z :=
  if (min_num_instances <? 0)%Z
  then inl (ValueError "min_num_instances must be greater or equal than 0.")
  else inr min_num_instances.

Definition bindE {A B} (m : Exn + A) (f : A -> Exn + B) : Exn + B :=
  match m with inl e => inl e | inr a => f a end.

(* lines 16-42: the assignments run in the order of the source, so the
   setter of beta reads the alpha assigned on the line before *)
Definition EDDMConfig_init (alpha beta level : float)
    (min_num_misclassified_instances min_num_instances : Z) : Exn + EDDMConfig :=
  bindE (DDMBaseConfig_init min_num_instances) (fun mni =>
  bindE (alpha_setter alpha) (fun a =>
  bindE (beta_setter a beta) (fun b =>
  bindE (level_setter level) (fun l =>
  bindE (min_num_misclassified_instances_setter min_num_misclassified_instances) (fun mmi =>
  inr (mkConfig a b l mmi mni)))))).

(** Assignments to the attributes of an existing configuration. *)
Definition set_alpha (value : float) (self : EDDMConfig) : Exn + EDDMConfig :=
  bindE (alpha_setter value) (fun a =>
  inr (mkConfig a (beta self) (level self)
         (min_num_misclassified_instances self) (min_num_instances self))).

Definition set_beta (value : float) (self : EDDMConfig) : Exn + EDDMConfig :=
  bindE (beta_setter (alpha self) value) (fun b =>
  inr (mkConfig (alpha self) b (level self)
         (min_num_misclassified_instances self) (min_num_instances self))).

Definition set_level (value : float) (self : EDDMConfig) : Exn + EDDMConfig :=
  bindE (level_setter value) (fun l =>
  inr (mkConfig (alpha self) (beta self) l
         (min_num_misclassified_instances self) (min_num_instances self))).

(* the defaults of lines 18-22 *)
Definition default_config : EDDMConfig := mkConfig (Fin 0.95) (Fin 0.9) (Fin 2) 30 30.

End Config.

(** ** numpy on one-dimensional arrays *)

Definition Label : Type := Z.
Definition Labels : Type := list Label.
(* a two-dimensional array, as the list of its rows *)
Definition Features : Type := list (list Q).

Fixpoint zip_with {A B C} (f : A -> B -> C) (l : list A) (l' : list B) : list C :=
  match l, l' with
  | a :: t, b :: t' => f a b :: zip_with f t t'
  | _, _ => []
  end.

Definition label_ne (a b : Label) : bool := negb (a =? b)%Z.

(* [y != y_pred]: elementwise, an array of one element being broadcast *)
Definition np_not_equal (y y_pred : Labels) : Exn + list bool :=
  if (length y =? length y_pred)%nat then inr (zip_with label_ne y y_pred)
  else match y, y_pred with
       | [a], _ => inr (map (fun b => label_ne a b) y_pred)
       | _, [b] => inr (map (fun a => label_ne a b) y)
       | _, _ => inl (ValueError "operands could not be broadcast together")
       end.

(* [~mask] *)
Definition np_invert (mask : list bool) : list bool := map negb mask.

Fixpoint argwhere_from (i : nat) (mask : list bool) : list (list nat) :=
  match mask with
  | [] => []
  | b :: t => if b then [i] :: argwhere_from (S i) t else argwhere_from (S i) t
  end.

(* [np.argwhere(mask)]: one row of coordinates for each true entry *)
Definition np_argwhere (mask : list bool) : list (list nat) := argwhere_from 0 mask.

(* [rows[0]] *)
Definition first_row {A} (rows : list A) : Exn + A :=
  match rows with
  | [] => inl (IndexError "index 0 is out of bounds for axis 0 with size 0")
  | r :: _ => inr r
  end.

(* [a[idxs]] and [X[idxs, :]], for an array of indices *)
Fixpoint np_take {A} (a : list A) (idxs : list nat) : Exn + list A :=
  match idxs with
  | [] => inr []
  | i :: t =>
      match nth_error a i, np_take a t with
      | None, _ => inl (IndexError "index is out of bounds for axis 0")
      | Some _, inl e => inl e
      | Some x, inr r => inr (x :: r)
      end
  end.

(* a rational lower approximation of the square root, to instantiate
   [np_sqrt] on concrete inputs *)
Definition sqrt_floor (q : Q) : Q :=
  Z.sqrt (Qnum q * Zpos (Qden q) * 4 ^ 26) # (Qden q * 2 ^ 26).

(** ** The detector object *)

(** The attributes that the base class [DDMBasedEstimator] keeps and that
    [EDDM.update] reads or writes.  [estimator_fitted] is what
    [check_is_fitted(self.estimator)] tests; [ground_truth] and
    [predictions] are the histories that lines 415-416 extend. *)
Record DDMBasedEstimator : Type := mkBase {
  estimator_fitted : bool;
  config : Config.EDDMConfig;
  delayed_predictions : list (Features * Labels);
  num_instances : Z;
  ground_truth : list Label;
  predictions : list Label;
  _drift_insufficient_samples : bool
}.

(** The attributes of [EDDM] itself, behind their properties.  Neither
    [__init__] (lines 133-153) nor [_reset] (lines 461-470) assigns
    [std_distance_error]: it is [None] until line 399 runs. *)
Record EDDM : Type := mkEDDM {
  base : DDMBasedEstimator;
  actual_distance_error : Q;
  distance_threshold : float;
  last_distance_error : Q;
  max_distance_threshold : float;
  mean_distance_error : Q;
  num_misclassified_instances : Z;
  old_mean_distance_error : Q;
  variance_distance_error : Q;
  std_distance_error : option Q
}.

(** Modelled from the spec: [_get_update_response] belongs to the absent
    base class; section 4.3 gives what it builds, the two flags and the four
    numbers that [_response] passes (lines 348-357). *)
Record Response : Type := mkResponse {
  drift : bool;
  warning : bool;
  r_distance_threshold : float;
  r_max_distance_threshold : float;
  r_mean_distance_error : Q;
  r_std_distance_error : Q
}.

(** Computations on the object. *)
Definition M (A : Type) : Type := EDDM -> EDDM * (Exn + A).

Definition ret {A} (a : A) : M A := fun self => (self, inr a).
Definition raise {A} (e : Exn) : M A := fun self => (self, inl e).
Definition bind {A B} (m : M A) (f : A -> M B) : M B :=
  fun self =>
    match m self with
    | (self', inl e) => (self', inl e)
    | (self', inr a) => f a self'
    end.
Definition gets {A} (f : EDDM -> A) : M A := fun self => (self, inr (f self)).
Definition modify (f : EDDM -> EDDM) : M unit := fun self => (f self, inr tt).
Definition lift {A} (r : Exn + A) : M A :=
  match r with inl e => raise e | inr a => ret a end.

Declare Scope eddm_scope.
Delimit Scope eddm_scope with eddm.
Notation "x <- c1 ;; c2" := (bind c1 (fun x => c2))
  (at level 61, c1 at next level, right associativity) : eddm_scope.
Notation "c1 ;; c2" := (bind c1 (fun _ => c2))
  (at level 61, right associativity) : eddm_scope.
Local Open Scope eddm_scope.

(** Plain attribute stores. *)
Definition with_base (f : DDMBasedEstimator -> DDMBasedEstimator) (s : EDDM) : EDDM :=
  mkEDDM (f (base s)) (actual_distance_error s) (distance_threshold s)
    (last_distance_error s) (max_distance_threshold s) (mean_distance_error s)
    (num_misclassified_instances s) (old_mean_distance_error s)
    (variance_distance_error s) (std_distance_error s).

Definition store_delayed_predictions (v : list (Features * Labels))
    (b : DDMBasedEstimator) : DDMBasedEstimator :=
  mkBase (estimator_fitted b) (config b) v (num_instances b) (ground_truth b)
    (predictions b) (_drift_insufficient_samples b).

Definition store_num_instances (v : Z) (b : DDMBasedEstimator) : DDMBasedEstimator :=
  mkBase (estimator_fitted b) (config b) (delayed_predictions b) v (ground_truth b)
    (predictions b) (_drift_insufficient_samples b).

Definition store_ground_truth (v : list Label) (b : DDMBasedEstimator) : DDMBasedEstimator :=
  mkBase (estimator_fitted b) (config b) (delayed_predictions b) (num_instances b) v
    (predictions b) (_drift_insufficient_samples b).

Definition store_predictions (v : list Label) (b : DDMBasedEstimator) : DDMBasedEstimator :=
  mkBase (estimator_fitted b) (config b) (delayed_predictions b) (num_instances b)
    (ground_truth b) v (_drift_insufficient_samples b).

Definition store_actual_distance_error (v : Q) (s : EDDM) : EDDM :=
  mkEDDM (base s) v (distance_threshold s)
    (last_distance_error s) (max_distance_threshold s) (mean_distance_error s)
    (num_misclassified_instances s) (old_mean_distance_error s)
    (variance_distance_error s) (std_distance_error s).

Definition store_distance_threshold (v : float) (s : EDDM) : EDDM :=
  mkEDDM (base s) (actual_distance_error s) v
    (last_distance_error s) (max_distance_threshold s) (mean_distance_error s)
    (num_misclassified_instances s) (old_mean_distance_error s)
    (variance_distance_error s) (std_distance_error s).

Definition store_last_distance_error (v : Q) (s : EDDM) : EDDM :=
  mkEDDM (base s) (actual_distance_error s) (distance_threshold s)
    v (max_distance_threshold s) (mean_distance_error s)
    (num_misclassified_instances s) (old_mean_distance_error s)
    (variance_distance_error s) (std_distance_error s).

Definition store_max_distance_threshold (v : float) (s : EDDM) : EDDM :=
  mkEDDM (base s) (actual_distance_error s) (distance_threshold s)
    (last_distance_error s) v (mean_distance_error s)
    (num_misclassified_instances s) (old_mean_distance_error s)
    (variance_distance_error s) (std_distance_error s).

Definition store_mean_distance_error (v : Q) (s : EDDM) : EDDM :=
  mkEDDM (base s) (actual_distance_error s) (distance_threshold s)
    (last_distance_error s) (max_distance_threshold s) v
    (num_misclassified_instances s) (old_mean_distance_error s)
    (variance_distance_error s) (std_distance_error s).

Definition store_num_misclassified_instances (v : Z) (s : EDDM) : EDDM :=
  mkEDDM (base s) (actual_distance_error s) (distance_threshold s)
    (last_distance_error s) (max_distance_threshold s) (mean_distance_error s)
    v (old_mean_distance_error s)
    (variance_distance_error s) (std_distance_error s).

Definition store_old_mean_distance_error (v : Q) (s : EDDM) : EDDM :=
  mkEDDM (base s) (actual_distance_error s) (distance_threshold s)
    (last_distance_error s) (max_distance_threshold s) (mean_distance_error s)
    (num_misclassified_instances s) v
    (variance_distance_error s) (std_distance_error s).

Definition store_variance_distance_error (v : Q) (s : EDDM) : EDDM :=
  mkEDDM (base s) (actual_distance_error s) (distance_threshold s)
    (last_distance_error s) (max_distance_threshold s) (mean_distance_error s)
    (num_misclassified_instances s) (old_mean_distance_error s)
    v (std_distance_error s).

Definition store_std_distance_error (v : Q) (s : EDDM) : EDDM :=
  mkEDDM (base s) (actual_distance_error s) (distance_threshold s)
    (last_distance_error s) (max_distance_threshold s) (mean_distance_error s)
    (num_misclassified_instances s) (old_mean_distance_error s)
    (variance_distance_error s) (Some v).

(** Property setters of [EDDM] (lines 164-340): a guard, then the store.
    [guarded_store] is the setter of a running statistic, a finite number. *)
Definition guarded_store (msg : string) (store : Q -> EDDM -> EDDM) (value : Q) : M unit :=
  if Qltb value 0 then raise (ValueError msg) else modify (store value).

Definition set_actual_distance_error : Q -> M unit :=
  guarded_store "actual_distance_error must be great or equal than 0."
    store_actual_distance_error.
(* lines 184-194: the value may be any float; the guard [value < 0] is
   false on nan *)
Definition set_distance_threshold (value : float) : M unit :=
  if float_ltb value (Fin 0)
  then raise (ValueError "distance_threshold must be great or equal than 0.")
  else modify (store_distance_threshold value).
Definition set_last_distance_error : Q -> M unit :=
  guarded_store "last_distance_error must be great or equal than 0."
    store_last_distance_error.
(* lines 226-233: no guard *)
Definition set_max_distance_threshold (value : float) : M unit :=
  modify (store_max_distance_threshold value).
Definition set_mean_distance_error : Q -> M unit :=
  guarded_store "mean_distance_error must be great or equal than 0."
    store_mean_distance_error.
Definition set_num_misclassified_instances (value : Z) : M unit :=
  if (value <? 0)%Z
  then raise (ValueError "num_misclassified_instances must be greater or equal than 0.")
  else modify (store_num_misclassified_instances value).
Definition set_old_mean_distance_error : Q -> M unit :=
  guarded_store "old_mean_distance_error must be great or equal than 0."
    store_old_mean_distance_error.
Definition set_std_distance_error : Q -> M unit :=
  guarded_store "std_distance_error must be great or equal than 0."
    store_std_distance_error.
Definition set_variance_distance_error : Q -> M unit :=
  guarded_store "variance must be great or equal than 0."
    store_variance_distance_error.

(* lines 300-307: the getter fails while the attribute was never assigned *)
Definition get_std_distance_error : M Q :=
  fun self =>
    match std_distance_error self with
    | Some v => (self, inr v)
    | None => (self, inl (AttributeError "_std_distance_error"))
    end.

(* lines 133-153, after [super().__init__] has produced the attributes [b] *)
Definition EDDM_init (b : DDMBasedEstimator) : EDDM :=
  mkEDDM b 0 (Fin 0) 0 NegInf 0 0%Z 0 0 None.

(* lines 348-357 *)
Definition _response (drift warning : bool) : M Response :=
  dt <- gets distance_threshold ;;
  mx <- gets max_distance_threshold ;;
  mean <- gets mean_distance_error ;;
  std <- get_std_distance_error ;;
  ret (mkResponse drift warning dt mx mean std).

(* lines 342-346 *)
Definition _normal_response : M Response := _response false false.

(* [check_is_fitted(self.estimator)], line 367 *)
Definition check_is_fitted : M unit :=
  fitted <- gets (fun self => estimator_fitted (base self)) ;;
  if fitted then ret tt else raise NotFittedError.

(** Modelled from the spec: the buffer [delayed_predictions] belongs to the
    absent base class; section 4.2 says that taking the oldest entry removes
    and returns the head and fails with EmptyBufferError on an empty
    buffer. *)
Definition popleft : M (Features * Labels) :=
  buffer <- gets (fun self => delayed_predictions (base self)) ;;
  match buffer with
  | [] => raise EmptyBufferError
  | entry :: rest =>
      modify (with_base (store_delayed_predictions rest)) ;;
      ret entry
  end.

(* lines 371-375: [Some idxs] when the [try] body completes, [None] when the
   handler of IndexError runs; any other exception propagates *)
Definition misclassified_idxs (y y_pred : Labels) : Exn + option (list nat) :=
  match np_not_equal y y_pred with
  | inl e => inl e
  | inr mask =>
      match first_row (np_argwhere (np_invert mask)) with
      | inl (IndexError _) => inr None
      | inl e => inl e
      | inr idxs => inr (Some idxs)
      end
  end.

(** The methods that [EDDM] calls on [self] and inherits from
    [DDMBasedEstimator].  Their bodies are not among the sources, so they
    are an interface: each may mutate the object and may raise. *)
Class Hooks : Type := mkHooks {
  _drift_case : Features -> Labels -> M unit;
  _warning_case : Features -> Labels -> M unit;
  _normal_case : Labels -> M unit;
  _check_drift_insufficient_samples : Features -> Labels -> M bool;
  super_reset : M unit
}.

(* hooks that do nothing, to run the model on concrete inputs *)
Definition idle_hooks : Hooks :=
  mkHooks (fun _ _ => ret tt) (fun _ _ => ret tt) (fun _ => ret tt)
    (fun _ _ => ret false) (ret tt).

(** What a prefix of [update] hands over: the response of an early
    [return], or the values the rest of the body goes on with. *)
Inductive flow (A : Type) : Type :=
| Return (r : Response)
| Continue (a : A).
Arguments Return {A} r.
Arguments Continue {A} a.

Section Detector.

Variable np_sqrt : Q -> Q.
Context {hooks : Hooks}.

(* lines 441-459 *)
Definition _check_case (X : Features) (y : Labels) (p : float) : M (bool * bool) :=
  beta <- gets (fun self => Config.beta (config (base self))) ;;
  if float_ltb p beta then
    _drift_case X y ;;
    ret (true, true)
  else
    alpha <- gets (fun self => Config.alpha (config (base self))) ;;
    if float_ltb p alpha then
      _warning_case X y ;;
      ret (false, true)
    else
      _normal_case y ;;
      ret (false, false).

(* lines 359-439 *)
Definition update (y : Labels) : M Response :=
  check_is_fitted ;;
  entry <- popleft ;;
  let X := fst entry in
  let y_pred := snd entry in
  n <- gets (fun self => num_instances (base self)) ;;
  modify (with_base (store_num_instances (n + Z.of_nat (length y_pred)))) ;;
  found <- lift (misclassified_idxs y y_pred) ;;
  match found with
  | None => _normal_response
  | Some misclassified_idxs =>
      X <- lift (np_take X misclassified_idxs) ;;
      y <- lift (np_take y misclassified_idxs) ;;
      y_pred <- lift (np_take y_pred misclassified_idxs) ;;
      nm <- gets num_misclassified_instances ;;
      set_num_misclassified_instances (nm + Z.of_nat (length misclassified_idxs)) ;;
      actual <- gets actual_distance_error ;;
      set_last_distance_error actual ;;
      n <- gets (fun self => num_instances (base self)) ;;
      set_actual_distance_error (inject_Z (n - 1)) ;;
      actual <- gets actual_distance_error ;;
      last <- gets last_distance_error ;;
      let distance := actual - last in
      mean <- gets mean_distance_error ;;
      set_old_mean_distance_error mean ;;
      nm <- gets num_misclassified_instances ;;
      (if (nm =? 0)%Z then raise ZeroDivisionError else ret tt) ;;
      set_mean_distance_error (mean + (distance - mean) / inject_Z nm) ;;
      variance <- gets variance_distance_error ;;
      mean <- gets mean_distance_error ;;
      old_mean <- gets old_mean_distance_error ;;
      set_variance_distance_error
        (variance + (distance - mean) * (distance - old_mean)) ;;
      nm <- gets num_misclassified_instances ;;
      (if (0 <? nm)%Z then
         variance <- gets variance_distance_error ;;
         set_std_distance_error (np_sqrt (variance / inject_Z nm))
       else set_std_distance_error 0) ;;
      n <- gets (fun self => num_instances (base self)) ;;
      min_n <- gets (fun self => Config.min_num_instances (config (base self))) ;;
      if (n <? min_n)%Z then _normal_response
      else
        insufficient <- gets (fun self => _drift_insufficient_samples (base self)) ;;
        drift_completed_flag <-
          (if insufficient then _check_drift_insufficient_samples X y else ret false) ;;
        if drift_completed_flag then _response true true
        else
          gt <- gets (fun self => ground_truth (base self)) ;;
          modify (with_base (store_ground_truth (gt ++ y))) ;;
          pr <- gets (fun self => predictions (base self)) ;;
          modify (with_base (store_predictions (pr ++ y_pred))) ;;
          nm <- gets num_misclassified_instances ;;
          min_nm <- gets (fun self =>
                      Config.min_num_misclassified_instances (config (base self))) ;;
          if (nm <? min_nm)%Z then _normal_response
          else
            mean <- gets mean_distance_error ;;
            level <- gets (fun self => Config.level (config (base self))) ;;
            std <- get_std_distance_error ;;
            set_distance_threshold (float_add (Fin mean) (float_mul level (Fin std))) ;;
            dt <- gets distance_threshold ;;
            mx <- gets max_distance_threshold ;;
            if float_gtb dt mx then
              dt <- gets distance_threshold ;;
              set_max_distance_threshold dt ;;
              _normal_response
            else
              dt <- gets distance_threshold ;;
              mx <- gets max_distance_threshold ;;
              let p := np_divide dt mx in
              flags <- _check_case X y p ;;
              _response (fst flags) (snd flags)
  end.

(* lines 461-470 *)
Definition _reset : M unit :=
  super_reset ;;
  set_actual_distance_error 0 ;;
  set_distance_threshold (Fin 0) ;;
  actual <- gets actual_distance_error ;;
  set_last_distance_error actual ;;
  set_max_distance_threshold NegInf ;;
  set_mean_distance_error 0 ;;
  set_num_misclassified_instances 0 ;;
  mean <- gets mean_distance_error ;;
  set_old_mean_distance_error mean ;;
  set_variance_distance_error 0.

(** *** The body of [update], cut at the two places the claims name *)

(* lines 367-423: everything before the threshold computation *)
Definition before_threshold (y : Labels) : M (flow (Features * Labels)) :=
  check_is_fitted ;;
  entry <- popleft ;;
  let X := fst entry in
  let y_pred := snd entry in
  n <- gets (fun self => num_instances (base self)) ;;
  modify (with_base (store_num_instances (n + Z.of_nat (length y_pred)))) ;;
  found <- lift (misclassified_idxs y y_pred) ;;
  match found with
  | None => r <- _normal_response ;; ret (Return r)
  | Some misclassified_idxs =>
      X <- lift (np_take X misclassified_idxs) ;;
      y <- lift (np_take y misclassified_idxs) ;;
      y_pred <- lift (np_take y_pred misclassified_idxs) ;;
      nm <- gets num_misclassified_instances ;;
      set_num_misclassified_instances (nm + Z.of_nat (length misclassified_idxs)) ;;
      actual <- gets actual_distance_error ;;
      set_last_distance_error actual ;;
      n <- gets (fun self => num_instances (base self)) ;;
      set_actual_distance_error (inject_Z (n - 1)) ;;
      actual <- gets actual_distance_error ;;
      last <- gets last_distance_error ;;
      let distance := actual - last in
      mean <- gets mean_distance_error ;;
      set_old_mean_distance_error mean ;;
      nm <- gets num_misclassified_instances ;;
      (if (nm =? 0)%Z then raise ZeroDivisionError else ret tt) ;;
      set_mean_distance_error (mean + (distance - mean) / inject_Z nm) ;;
      variance <- gets variance_distance_error ;;
      mean <- gets mean_distance_error ;;
      old_mean <- gets old_mean_distance_error ;;
      set_variance_distance_error
        (variance + (distance - mean) * (distance - old_mean)) ;;
      nm <- gets num_misclassified_instances ;;
      (if (0 <? nm)%Z then
         variance <- gets variance_distance_error ;;
         set_std_distance_error (np_sqrt (variance / inject_Z nm))
       else set_std_distance_error 0) ;;
      n <- gets (fun self => num_instances (base self)) ;;
      min_n <- gets (fun self => Config.min_num_instances (config (base self))) ;;
      if (n <? min_n)%Z then r <- _normal_response ;; ret (Return r)
      else
        insufficient <- gets (fun self => _drift_insufficient_samples (base self)) ;;
        drift_completed_flag <-
          (if insufficient then _check_drift_insufficient_samples X y else ret false) ;;
        if drift_completed_flag then r <- _response true true ;; ret (Return r)
        else
          gt <- gets (fun self => ground_truth (base self)) ;;
          modify (with_base (store_ground_truth (gt ++ y))) ;;
          pr <- gets (fun self => predictions (base self)) ;;
          modify (with_base (store_predictions (pr ++ y_pred))) ;;
          nm <- gets num_misclassified_instances ;;
          min_nm <- gets (fun self =>
                      Config.min_num_misclassified_instances (config (base self))) ;;
          if (nm <? min_nm)%Z then r <- _normal_response ;; ret (Return r)
          else ret (Continue (X, y))
  end.

(* lines 425-430: the threshold and the running maximum; the result tells
   whether the branch of line 429 was taken *)
Definition threshold_step : M bool :=
  mean <- gets mean_distance_error ;;
  level <- gets (fun self => Config.level (config (base self))) ;;
  std <- get_std_distance_error ;;
  set_distance_threshold (float_add (Fin mean) (float_mul level (Fin std))) ;;
  dt <- gets distance_threshold ;;
  mx <- gets max_distance_threshold ;;
  if float_gtb dt mx then
    dt <- gets distance_threshold ;;
    set_max_distance_threshold dt ;;
    ret true
  else ret false.

(* lines 434-439 *)
Definition zone_decision (X : Features) (y : Labels) : M Response :=
  dt <- gets distance_threshold ;;
  mx <- gets max_distance_threshold ;;
  let p := np_divide dt mx in
  flags <- _check_case X y p ;;
  _response (fst flags) (snd flags).

Definition update_in_stages (y : Labels) : M Response :=
  f <- before_threshold y ;;
  match f with
  | Return r => ret r
  | Continue (X, y) =>
      new_maximum <- threshold_step ;;
      if new_maximum then _normal_response else zone_decision X y
  end.

(* the objects after each of a sequence of [update] calls, whatever each
   call returned or raised *)
Fixpoint run_updates (ys : list Labels) (self : EDDM) : list EDDM :=
  match ys with
  | [] => []
  | y :: rest => let self' := fst (update y self) in self' :: run_updates rest self'
  end.

End Detector.

(** ** Vocabulary of the properties *)

(* every object that [m] can leave behind, whether it returns or raises, is
   related by [R] to the object it started from *)
Definition stays_within (R : EDDM -> EDDM -> Prop) {A} (m : M A) : Prop :=
  forall self, R self (fst (m self)).

(* the assumption made on the hooks that [update] calls *)
Definition update_hooks_stay_within (R : EDDM -> EDDM -> Prop) (hooks : Hooks) : Prop :=
  (forall X y, stays_within R (_drift_case X y)) /\
  (forall X y, stays_within R (_warning_case X y)) /\
  (forall y, stays_within R (_normal_case y)) /\
  (forall X y, stays_within R (_check_drift_insufficient_samples X y)).

(* the maximum after is at least the maximum before; a maximum of nan,
   which only an assignment from outside can store, is at least nothing *)
Definition maximum_not_lowered (self self' : EDDM) : Prop :=
  max_distance_threshold self <> NaN ->
  float_le (max_distance_threshold self) (max_distance_threshold self').

Fixpoint nondecreasing (l : list float) : Prop :=
  match l with
  | a :: (b :: _) as rest => float_le a b /\ nondecreasing rest
  | _ => True
  end.

(* [std_distance_error >= 0], for an attribute that may not be assigned yet *)
Definition std_nonneg (self : EDDM) : Prop :=
  forall v, std_distance_error self = Some v -> 0 <= v.

Definition keeps_std_nonneg (self self' : EDDM) : Prop :=
  std_nonneg self -> std_nonneg self'.

(* the detectors one gets from construction by calls of [update] and
   [_reset], whatever the calls return or raise *)
Inductive reachable (np_sqrt : Q -> Q) {hooks : Hooks} : EDDM -> Prop :=
| reach_init (b : DDMBasedEstimator) : reachable np_sqrt (EDDM_init b)
| reach_update (y : Labels) (self : EDDM) :
    reachable np_sqrt self -> reachable np_sqrt (fst (update np_sqrt y self))
| reach_reset (self : EDDM) :
    reachable np_sqrt self -> reachable np_sqrt (fst (_reset self)).

(* what line 425 reads is in the range that the setters enforce *)
Definition threshold_inputs_ok (self : EDDM) : Prop :=
  float_ltb (Config.level (config (base self))) (Fin 0) = false /\
  0 <= mean_distance_error self /\
  exists sd, std_distance_error self = Some sd /\ 0 <= sd.

Definition keeps_threshold_inputs_ok (self self' : EDDM) : Prop :=
  threshold_inputs_ok self -> threshold_inputs_ok self'.

(** The misclassified positions in the words of the specification
    (section 4.3, step 2): those where the prediction differs from the
    truth.  Line 372 is compared with this. *)
Fixpoint misclassified_from (i : nat) (y y_pred : Labels) : list nat :=
  match y, y_pred with
  | a :: t, b :: t' =>
      if label_ne a b then i :: misclassified_from (S i) t t'
      else misclassified_from (S i) t t'
  | _, _ => []
  end.

Definition misclassified_positions (y y_pred : Labels) : list nat :=
  misclassified_from 0 y y_pred.

(** ** Concrete detectors, to run the model *)

(* [EDDMConfig(level=0.5, min_num_misclassified_instances=0,
   min_num_instances=0)], and the same after [config.alpha = 0.5] *)
Definition example_config : Config.EDDMConfig :=
  Config.mkConfig (Fin 0.95) (Fin 0.9) (Fin 0.5) 0 0.
Definition mutated_config : Config.EDDMConfig :=
  Config.mkConfig (Fin 0.5) (Fin 0.9) (Fin 0.5) 0 0.

Definition ten_rows : Features := repeat [0] 10.
Definition ten_ones : Labels := repeat 1%Z 10.

(* a new detector on a fitted classifier that predicted 1 for a batch of
   ten instances and then for a batch of one *)
Definition example_detector (cfg : Config.EDDMConfig) : EDDM :=
  EDDM_init (mkBase true cfg [(ten_rows, ten_ones); ([[0]], [1%Z])] 0 [] [] false).

(* the same detector once the labels of the first batch have arrived *)
Definition after_first_batch (cfg : Config.EDDMConfig) : EDDM :=
  fst (update sqrt_floor (hooks := idle_hooks) ten_ones (example_detector cfg)).

(* a new detector with the default configuration and one pending batch *)
Definition fresh_detector (y_pred : Labels) : EDDM :=
  EDDM_init (mkBase true Config.default_config
               [(map (fun _ => [0]) y_pred, y_pred)] 0 [] [] false).

(* the second example call, cut where the claims cut it *)
Definition example_at_threshold (cfg : Config.EDDMConfig) : EDDM :=
  fst (before_threshold sqrt_floor (hooks := idle_hooks) [1%Z] (after_first_batch cfg)).

Definition example_at_zone (cfg : Config.EDDMConfig) : EDDM :=
  fst (threshold_step (example_at_threshold cfg)).

(** ** Assignments to a constructed configuration *)

Module ConfigOps.
Import Config.

(* [config.min_num_misclassified_instances = value], lines 115-127 *)
Definition set_min_num_misclassified_instances (value : Z) (self : EDDMConfig)
    : Exn + EDDMConfig :=
  bindE (min_num_misclassified_instances_setter value) (fun m =>
  inr (mkConfig (alpha self) (beta self) (level self) m (min_num_instances self))).

(* the guarded assignments *)
Inductive assignment : Type :=
| AssignBeta (value : float)
| AssignLevel (value : float)
| AssignMinMisclassified (value : Z).

Definition assign (a : assignment) (self : EDDMConfig) : Exn + EDDMConfig :=
  match a with
  | AssignBeta v => set_beta v self
  | AssignLevel v => set_level v self
  | AssignMinMisclassified v => set_min_num_misclassified_instances v self
  end.

(* the object after the statement: a setter that raises has stored nothing *)
Definition after_assignment (self : EDDMConfig) (a : assignment) : EDDMConfig :=
  match assign a self with
  | inr self' => self'
  | inl _ => self
  end.

(* what the guards of lines 79-82, 102 and 123 protect: 0 < beta < alpha,
   level > 0 and a minimum count that is not negative *)
Definition valid (self : EDDMConfig) : Prop :=
  float_ltb (Fin 0) (beta self) = true /\
  float_ltb (beta self) (alpha self) = true /\
  float_ltb (Fin 0) (level self) = true /\
  (0 <= min_num_misclassified_instances self)%Z.

(* an assignment of nan to beta or to level *)
Definition assigns_nan (a : assignment) : bool :=
  match a with
  | AssignBeta NaN => true
  | AssignLevel NaN => true
  | _ => false
  end.

End ConfigOps.

(** ** CVMTest: the reference data and its check

    Source: [frouros/unsupervised/cvm.py].  An array is the list of its
    samples (axis 0).  [check_array] is scikit-learn's validation, a
    parameter: it returns the array to store or raises. *)

Module CVM.

Definition Array : Type := list (list Q).

Inductive CvmExn (E : Type) : Type :=
| InsufficientSamplesError (msg : string)
| CheckArrayError (e : E).
Arguments InsufficientSamplesError {E} msg.
Arguments CheckArrayError {E} e.

(* the attribute [_X_ref_] of the estimator *)
Record CVMTest : Type := mkCVMTest { _X_ref_ : option Array }.

(* lines 34-37: [X.shape[0] < 2] *)
Definition _check_sufficient_samples {E} (X : Array) : CvmExn E + unit :=
  if (length X <? 2)%nat
  then inl (InsufficientSamplesError "Number of samples must be at least 2.")
  else inr tt.

(* lines 31-32 *)
Definition _specific_checks {E} (X : Array) : CvmExn E + unit :=
  _check_sufficient_samples X.

Section Setter.

Variable E : Type.
Variable check_array : Array -> E + Array.

(* lines 18-29: the setter of [X_ref_] *)
Definition set_X_ref_ (value : option Array) (self : CVMTest) : CvmExn E + CVMTest :=
  match value with
  | Some X =>
      match _check_sufficient_samples X with
      | inl e => inl e
      | inr _ =>
          match check_array X with
          | inl e => inl (CheckArrayError e)
          | inr X' => inr (mkCVMTest (Some X'))
          end
      end
  | None => inr (mkCVMTest None)
  end.

(* the estimator after the statement [self.X_ref_ = value], stored or raised *)
Definition after_set_X_ref_ (self : CVMTest) (value : option Array) : CVMTest :=
  match set_X_ref_ value self with
  | inr self' => self'
  | inl _ => self
  end.

(* a stored reference went through both checks *)
Definition reference_checked (self : CVMTest) : Prop :=
  forall X', _X_ref_ self = Some X' ->
  exists X, (2 <= length X)%nat /\ check_array X = inr X'.

End Setter.

End CVM.

(** ** Vocabulary of the further properties *)

(* hooks that leave the counter, the variance and the deviation alone *)
Definition same_statistics (self self' : EDDM) : Prop :=
  num_misclassified_instances self' = num_misclassified_instances self /\
  variance_distance_error self' = variance_distance_error self /\
  std_distance_error self' = std_distance_error self.

(* hooks that leave the bookkeeping of lines 367-369 alone *)
Definition same_bookkeeping (self self' : EDDM) : Prop :=
  delayed_predictions (base self') = delayed_predictions (base self) /\
  num_instances (base self') = num_instances (base self).

(* the ranges that the setters guard, and what makes the distances positive *)
Definition in_range (self : EDDM) : Prop :=
  (0 <= num_instances (base self))%Z /\
  (0 <= num_misclassified_instances self)%Z /\
  0 <= actual_distance_error self /\
  actual_distance_error self <= inject_Z (num_instances (base self)) /\
  0 <= mean_distance_error self /\
  0 <= variance_distance_error self /\
  float_ltb (Config.level (config (base self))) (Fin 0) = false /\
  std_nonneg self.

Definition keeps_in_range (self self' : EDDM) : Prop :=
  in_range self -> in_range self'.

(* once assigned, [std_distance_error] stays assigned *)
Definition keeps_std_assigned (self self' : EDDM) : Prop :=
  std_distance_error self <> None -> std_distance_error self' <> None.

(* a level that is a finite number *)
Definition finite_level (self : EDDM) : Prop :=
  exists l, Config.level (config (base self)) = Fin l.

(* a threshold [dt] is at most the maximum [mx]; or there is no maximum
   yet, and the threshold is 0 *)
Definition below (dt mx : float) : Prop :=
  match mx with
  | NegInf => exists t, dt = Fin t /\ t == 0
  | m => float_le dt m
  end.

Definition threshold_below_maximum (self : EDDM) : Prop :=
  below (distance_threshold self) (max_distance_threshold self).

Definition keeps_threshold_below_maximum (self self' : EDDM) : Prop :=
  finite_level self /\ threshold_below_maximum self ->
  finite_level self' /\ threshold_below_maximum self'.

(* the exceptions of the guards in the property setters of [EDDM], and the
   division of line 395 *)
Definition is_guard_error (e : Exn) : bool :=
  match e with
  | ZeroDivisionError => true
  | ValueError msg =>
      negb (String.eqb msg "operands could not be broadcast together")
  | _ => false
  end.

(* the hooks that [update] calls raise no such exception themselves *)
Definition update_hooks_raise_no_guard_error (hooks : Hooks) : Prop :=
  (forall X y s s' e, _drift_case X y s = (s', inl e) -> is_guard_error e = false) /\
  (forall X y s s' e, _warning_case X y s = (s', inl e) -> is_guard_error e = false) /\
  (forall y s s' e, _normal_case y s = (s', inl e) -> is_guard_error e = false) /\
  (forall X y s s' e,
     _check_drift_insufficient_samples X y s = (s', inl e) -> is_guard_error e = false).

(* the hooks that [update] calls return *)
Definition update_hooks_return (hooks : Hooks) : Prop :=
  (forall X y s, exists s', _drift_case X y s = (s', inr tt)) /\
  (forall X y s, exists s', _warning_case X y s = (s', inr tt)) /\
  (forall y s, exists s', _normal_case y s = (s', inr tt)) /\
  (forall X y s, exists s' b, _check_drift_insufficient_samples X y s = (s', inr b)).

(* the two histories hold the same values *)
Definition histories_agree (self : EDDM) : Prop :=
  ground_truth (base self) = predictions (base self).

Definition keeps_histories_agreeing (self self' : EDDM) : Prop :=
  histories_agree self -> histories_agree self'.

(** * Properties *)

(** ** Comparisons *)

Lemma Qltb_true x y : Qltb x y = true <-> x < y.
Proof.
  unfold Qltb. rewrite negb_true_iff. split; intro H.
  - apply Qnot_le_lt. intro L. apply Qle_bool_iff in L. congruence.
  - destruct (Qle_bool y x) eqn:E; [|reflexivity].
    apply Qle_bool_iff in E. exfalso. apply (Qlt_not_le _ _ H E).
Qed.

Lemma Qltb_false x y : Qltb x y = false <-> y <= x.
Proof.
  unfold Qltb. rewrite negb_false_iff. apply Qle_bool_iff.
Qed.

Lemma Qle_bool_false x y : Qle_bool x y = false <-> y < x.
Proof.
  rewrite <- Qltb_true. unfold Qltb. now rewrite negb_true_iff.
Qed.

(** ** Floats *)

Lemma float_le_refl a : a <> NaN -> float_le a a.
Proof.
  unfold float_le. destruct a; simpl; try congruence.
  intros _. apply Qle_bool_iff, Qle_refl.
Qed.

Lemma float_le_trans a b c : float_le a b -> float_le b c -> float_le a c.
Proof.
  unfold float_le. destruct a, b, c; simpl; try congruence.
  rewrite !Qle_bool_iff. apply Qle_trans.
Qed.

(* what is at least a number is a number *)
Lemma float_le_number a b : float_le a b -> b <> NaN.
Proof.
  unfold float_le. destruct a, b; simpl; congruence.
Qed.

Lemma float_gtb_le x m : float_gtb x m = true -> float_le m x.
Proof.
  unfold float_gtb, float_le. destruct m, x; simpl; try congruence.
  intro H. apply Qltb_true in H. apply Qle_bool_iff. now apply Qlt_le_weak.
Qed.

(* for numbers, [a <= b] fails exactly when [b < a] *)
Lemma float_leb_false a b :
  a <> NaN -> b <> NaN -> float_leb a b = false -> float_ltb b a = true.
Proof.
  destruct a, b; simpl; try congruence.
  intros _ _ H. apply Qltb_true. now apply Qle_bool_false.
Qed.

Lemma float_ltb_not_leb a b : float_ltb b a = true -> float_leb a b = false.
Proof.
  destruct a, b; simpl; try congruence.
  intro H. apply Qle_bool_false. now apply Qltb_true.
Qed.

Lemma float_geb_not_ltb p c : float_geb p c = true -> float_ltb p c = false.
Proof.
  unfold float_geb. destruct p, c; simpl; try congruence.
  intro H. apply Qltb_false. now apply Qle_bool_iff.
Qed.

(* the guard of the threshold setter passes on what line 425 computes from
   a mean and a deviation that are not negative and a level that is not
   below 0 *)
Lemma threshold_guard (l : float) (m sd : Q) :
  float_ltb l (Fin 0) = false -> 0 <= m -> 0 <= sd ->
  float_ltb (float_add (Fin m) (float_mul l (Fin sd))) (Fin 0) = false.
Proof.
  intros Hl Hm Hsd. destruct l as [| | |l]; simpl in *; try congruence.
  - unfold inf_times. destruct (Qeq_bool sd 0) eqn:E0; [reflexivity|].
    assert (H : Qltb 0 sd = true).
    { apply Qltb_true. apply Qle_lt_or_eq in Hsd. destruct Hsd as [H|H]; [exact H|].
      apply Qeq_bool_neq in E0. exfalso. apply E0. symmetry. exact H. }
    rewrite H. reflexivity.
  - apply Qltb_false in Hl. apply Qltb_false.
    setoid_replace 0 with (0 + 0) by ring.
    apply Qplus_le_compat; [exact Hm|]. now apply Qmult_le_0_compat.
Qed.

(** ** Configuration *)

Module ConfigFacts.
Import Config.

Lemma beta_setter_ok a v b :
  beta_setter a v = inr b ->
  b = v /\ float_leb v (Fin 0) = false /\ float_geb v a = false.
Proof.
  unfold beta_setter.
  destruct (float_leb v (Fin 0)) eqn:E0; [discriminate|].
  destruct (float_geb v a) eqn:E1; [discriminate|].
  intro H; injection H as <-. auto.
Qed.

Lemma level_setter_ok v l :
  level_setter v = inr l -> l = v /\ float_leb v (Fin 0) = false.
Proof.
  unfold level_setter. destruct (float_leb v (Fin 0)) eqn:E0; [discriminate|].
  intro H; injection H as <-. auto.
Qed.

Lemma init_raises_only_ValueError a b l mmi mni e :
  EDDMConfig_init a b l mmi mni = inl e -> ConfigurationError e.
Proof.
  unfold EDDMConfig_init, DDMBaseConfig_init, alpha_setter, beta_setter,
    level_setter, min_num_misclassified_instances_setter, bindE, ConfigurationError.
  repeat match goal with
         | |- context [if ?c then _ else _] => destruct c
         end; intro H; inversion H; eauto.
Qed.

(** C3, at a failing input.  The guards of lines 79, 81 and 102 are
    comparisons, and every comparison with nan is false: the setter of beta
    stores nan whatever alpha is, and the setter of level stores nan.  So
    [EDDMConfig(beta=float("nan"))] and [EDDMConfig(level=float("nan"))]
    return a configuration, for which 0 < beta, beta < alpha and level > 0
    are false; and with alpha = nan any beta above 0 is accepted. *)
Theorem EDDMConfig_init_accepts_nan :
  (forall self_alpha, beta_setter self_alpha NaN = inr NaN) /\
  level_setter NaN = inr NaN /\
  EDDMConfig_init (Fin 0.95) NaN (Fin 2) 30 30
    = inr (mkConfig (Fin 0.95) NaN (Fin 2) 30 30) /\
  float_ltb (Fin 0) (beta (mkConfig (Fin 0.95) NaN (Fin 2) 30 30)) = false /\
  float_ltb (beta (mkConfig (Fin 0.95) NaN (Fin 2) 30 30))
    (alpha (mkConfig (Fin 0.95) NaN (Fin 2) 30 30)) = false /\
  EDDMConfig_init (Fin 0.95) (Fin 0.9) NaN 30 30
    = inr (mkConfig (Fin 0.95) (Fin 0.9) NaN 30 30) /\
  float_gtb (level (mkConfig (Fin 0.95) (Fin 0.9) NaN 30 30)) (Fin 0) = false /\
  EDDMConfig_init NaN (Fin 0.9) (Fin 2) 30 30
    = inr (mkConfig NaN (Fin 0.9) (Fin 2) 30 30) /\
  float_ltb (beta (mkConfig NaN (Fin 0.9) (Fin 2) 30 30))
    (alpha (mkConfig NaN (Fin 0.9) (Fin 2) 30 30)) = false.
Proof.
  repeat split. intros [| | |a]; reflexivity.
Qed.

(** C10. The setter of alpha has no guard: at construction (line 39) and
    on a constructed configuration, every value is stored as it is; so
    assigning alpha on a configuration built by the constructor can leave
    beta >= alpha. *)
Theorem alpha_assignment_is_unvalidated :
  (forall value, alpha_setter value = inr value) /\
  (forall value self,
     set_alpha value self =
       inr (mkConfig value (beta self) (level self)
              (min_num_misclassified_instances self) (min_num_instances self))) /\
  (exists self self',
     EDDMConfig_init (Fin 0.95) (Fin 0.9) (Fin 2) 30 30 = inr self /\
     set_alpha (Fin 0.5) self = inr self' /\
     float_le (alpha self') (beta self')).
Proof.
  split; [reflexivity|]. split; [reflexivity|].
  exists default_config. eexists. split; [reflexivity|]. split; [reflexivity|].
  reflexivity.
Qed.

End ConfigFacts.

(** ** The monad *)

Lemma bind_raise {A B} (m : M A) (f : A -> M B) s s' e :
  m s = (s', inl e) -> bind m f s = (s', inl e).
Proof. unfold bind. now intros ->. Qed.

Lemma bind_ret {A B} (m : M A) (f : A -> M B) s s' a :
  m s = (s', inr a) -> bind m f s = f a s'.
Proof. unfold bind. now intros ->. Qed.

(* unfold every computation down to the calls of the hooks *)
Ltac unfold_M :=
  unfold _normal_response, _response, _check_case, check_is_fitted, popleft,
    get_std_distance_error, set_actual_distance_error, set_distance_threshold,
    set_last_distance_error, set_max_distance_threshold, set_mean_distance_error,
    set_num_misclassified_instances, set_old_mean_distance_error,
    set_std_distance_error, set_variance_distance_error, guarded_store, lift,
    bind, ret, raise, gets, modify in *.

(* case analysis on the next thing a computation inspects *)
(* projections of stores, and nothing else *)
Ltac plumbing :=
  cbn [fst snd
       base actual_distance_error distance_threshold last_distance_error
       max_distance_threshold mean_distance_error num_misclassified_instances
       old_mean_distance_error variance_distance_error std_distance_error
       estimator_fitted config delayed_predictions num_instances ground_truth
       predictions _drift_insufficient_samples
       with_base store_delayed_predictions store_num_instances
       store_ground_truth store_predictions
       store_actual_distance_error store_distance_threshold
       store_last_distance_error store_max_distance_threshold
       store_mean_distance_error store_num_misclassified_instances
       store_old_mean_distance_error store_variance_distance_error
       store_std_distance_error] in *.

Ltac branch :=
  plumbing;
  match goal with
  | |- context [match ?x with _ => _ end] =>
      lazymatch x with
      | context [match _ with _ => _ end] => fail
      | _ => destruct x eqn:?
      end
  end.

Section DetectorFacts.

Variable np_sqrt : Q -> Q.
Context {hooks : Hooks}.

Lemma update_stages (y : Labels) (s : EDDM) :
  update np_sqrt y s = update_in_stages np_sqrt y s.
Proof.
  unfold update, update_in_stages, before_threshold, threshold_step, zone_decision.
  unfold_M.
  repeat branch; reflexivity.
Qed.

(** C8. With a classifier that is not fitted, [update] raises NotFittedError
    at its first line and the object is left exactly as it was: buffer,
    counters and every distance, mean, variance and threshold field. *)
Theorem update_not_fitted (y : Labels) (s : EDDM) :
  estimator_fitted (base s) = false ->
  update np_sqrt y s = (s, inl NotFittedError).
Proof.
  intro H. unfold update. apply bind_raise.
  unfold check_is_fitted, bind, gets. rewrite H. reflexivity.
Qed.

(** C9. With a fitted classifier and an empty buffer of delayed
    predictions, [update] raises EmptyBufferError (and has changed nothing
    by then). *)
Theorem update_empty_buffer (y : Labels) (s : EDDM) :
  estimator_fitted (base s) = true ->
  delayed_predictions (base s) = [] ->
  update np_sqrt y s = (s, inl EmptyBufferError).
Proof.
  intros Hf Hb. unfold update.
  rewrite (bind_ret _ _ s s tt).
  - apply bind_raise. unfold popleft, bind, gets. rewrite Hb. reflexivity.
  - unfold check_is_fitted, bind, gets. rewrite Hf. reflexivity.
Qed.

(** ** The running maximum *)

(* what a hook that ran says about the object it left *)
Ltac hook_facts Hhooks :=
  unfold update_hooks_stay_within, stays_within in Hhooks;
  destruct Hhooks as (Hdrift & Hwarning & Hnormal & Hcheck);
  repeat match goal with
         | E : _drift_case ?X ?y ?st = (_, _) |- _ =>
             let H := fresh "Hran" in
             pose proof (Hdrift X y st) as H; rewrite E in H; clear E
         | E : _warning_case ?X ?y ?st = (_, _) |- _ =>
             let H := fresh "Hran" in
             pose proof (Hwarning X y st) as H; rewrite E in H; clear E
         | E : _normal_case ?y ?st = (_, _) |- _ =>
             let H := fresh "Hran" in
             pose proof (Hnormal y st) as H; rewrite E in H; clear E
         | E : _check_drift_insufficient_samples ?X ?y ?st = (_, _) |- _ =>
             let H := fresh "Hran" in
             pose proof (Hcheck X y st) as H; rewrite E in H; clear E
         end.

(* a leaf of the case analysis for [maximum_not_lowered]: the maximum is
   the one the call started from, or the threshold that replaced it, or
   what a hook left *)
Ltac not_lowered_leaf :=
  unfold maximum_not_lowered in *; plumbing;
  repeat match goal with
         | H : float_gtb _ _ = true |- _ => apply float_gtb_le in H
         end;
  repeat match goal with
         | H : ?a <> NaN -> float_le ?a _ |- _ =>
             let P := fresh "Hnum" in
             assert (P : a <> NaN)
               by first [assumption | eapply float_le_number; eassumption];
             specialize (H P); clear P
         end;
  eauto using float_le_refl, float_le_trans.

Lemma update_never_lowers_maximum :
  update_hooks_stay_within maximum_not_lowered hooks ->
  forall y, stays_within maximum_not_lowered (update np_sqrt y).
Proof.
  intros Hhooks y s Hnum.
  unfold update. unfold_M.
  repeat branch; hook_facts Hhooks; not_lowered_leaf.
Qed.

(** C6. Provided the hooks that [update] calls do not lower
    [max_distance_threshold] themselves, along every sequence of [update]
    calls (no reset in between; the calls may return or raise) the value
    after a call is at least the value before it.  The sequence may start
    from any detector whose maximum is a number or an infinity: minus
    infinity, as after construction, or any other. *)
Theorem max_distance_threshold_nondecreasing :
  update_hooks_stay_within maximum_not_lowered hooks ->
  forall (ys : list Labels) (s : EDDM),
    max_distance_threshold s <> NaN ->
    nondecreasing (map max_distance_threshold (s :: run_updates np_sqrt ys s)).
Proof.
  intros Hhooks ys. induction ys as [|y ys IH]; intros s Hnum.
  - exact I.
  - change (float_le (max_distance_threshold s)
              (max_distance_threshold (fst (update np_sqrt y s))) /\
            nondecreasing (map max_distance_threshold
              (fst (update np_sqrt y s)
                 :: run_updates np_sqrt ys (fst (update np_sqrt y s))))).
    pose proof (update_never_lowers_maximum Hhooks y s Hnum) as Hstep.
    split; [exact Hstep|].
    apply IH. exact (float_le_number _ _ Hstep).
Qed.

(** ** The standard deviation *)

Lemma stored_std_nonneg x :
  Qltb x 0 = false -> forall v, Some x = Some v -> 0 <= v.
Proof.
  intros H v E. injection E as <-. now apply Qltb_false.
Qed.

Lemma std_nonneg_init b : std_nonneg (EDDM_init b).
Proof. intros w E. discriminate E. Qed.

Lemma update_keeps_std_nonneg :
  update_hooks_stay_within keeps_std_nonneg hooks ->
  forall y, stays_within keeps_std_nonneg (update np_sqrt y).
Proof.
  intros Hhooks y s H0.
  unfold update. unfold_M.
  repeat branch; hook_facts Hhooks;
    unfold keeps_std_nonneg, std_nonneg in *; plumbing;
    eauto using stored_std_nonneg.
Qed.

Lemma reset_keeps_std_nonneg :
  stays_within keeps_std_nonneg super_reset ->
  stays_within keeps_std_nonneg _reset.
Proof.
  intros Hsuper s H0. specialize (Hsuper s).
  unfold _reset. unfold_M.
  repeat branch; unfold keeps_std_nonneg, std_nonneg in *; plumbing; eauto.
Qed.

(* the response of a call that returns reports the deviation the object holds *)
Lemma update_reports_std (y : Labels) (s : EDDM) :
  match update np_sqrt y s with
  | (s', inr r) => std_distance_error s' = Some (r_std_distance_error r)
  | (_, inl _) => True
  end.
Proof.
  unfold update. unfold_M.
  repeat branch; plumbing; auto.
Qed.

(** ** The threshold *)

Lemma guard_nonneg x : Qltb x 0 = false -> 0 <= x.
Proof. apply Qltb_false. Qed.

(* when the body gets as far as line 425, the setters have vetted what that
   line reads *)
Lemma before_threshold_inputs_ok (y : Labels) (s : EDDM) :
  float_ltb (Config.level (config (base s))) (Fin 0) = false ->
  (forall X y, stays_within keeps_threshold_inputs_ok
                 (_check_drift_insufficient_samples X y)) ->
  match before_threshold np_sqrt y s with
  | (s1, inr (Continue _)) => threshold_inputs_ok s1
  | _ => True
  end.
Proof.
  intros Hlevel Hcheck. unfold stays_within, keeps_threshold_inputs_ok in Hcheck.
  unfold before_threshold. unfold_M.
  repeat branch; try exact I;
    repeat match goal with
           | E : _check_drift_insufficient_samples ?X ?y ?st = (_, _) |- _ =>
               let H := fresh "Hran" in
               pose proof (Hcheck X y st) as H; rewrite E in H; clear E
           end;
    unfold threshold_inputs_ok in *; plumbing;
    try (match goal with H : _ -> _ |- _ => apply H end);
    repeat split; eauto using guard_nonneg.
Qed.

(** C5. When [update] gets as far as the threshold computation, with a
    configuration whose level is not below 0 and a check hook that leaves
    the statistics in the range their setters enforce, line 425 stores
    [mean_distance_error + level * std_distance_error] in
    [distance_threshold]; if that value is greater than
    [max_distance_threshold], it becomes the new maximum and the call
    returns the normal response, built at once, with no zone ratio and no
    hook; if not, the call goes on to the zone decision. *)
Theorem threshold_and_new_maximum (y : Labels) (s s1 : EDDM) (X' : Features) (y' : Labels) :
  float_ltb (Config.level (config (base s))) (Fin 0) = false ->
  (forall X y, stays_within keeps_threshold_inputs_ok
                 (_check_drift_insufficient_samples X y)) ->
  before_threshold np_sqrt y s = (s1, inr (Continue (X', y'))) ->
  exists sd,
    std_distance_error s1 = Some sd /\
    let dt := float_add (Fin (mean_distance_error s1))
                (float_mul (Config.level (config (base s1))) (Fin sd)) in
    let s2 := store_distance_threshold dt s1 in
    if float_gtb dt (max_distance_threshold s1)
    then update np_sqrt y s =
           (store_max_distance_threshold dt s2,
            inr (mkResponse false false dt dt (mean_distance_error s1) sd))
    else update np_sqrt y s = zone_decision X' y' s2.
Proof.
  intros Hlevel Hcheck E.
  pose proof (before_threshold_inputs_ok y s Hlevel Hcheck) as Hok.
  rewrite E in Hok. destruct Hok as (Hl & Hm & sd & Hsd & Hsd0).
  exists sd. split; [exact Hsd|].
  pose proof (threshold_guard _ _ _ Hl Hm Hsd0) as Hdt.
  cbv zeta.
  rewrite update_stages. unfold update_in_stages.
  rewrite (bind_ret _ _ _ _ _ E).
  unfold threshold_step. unfold_M. plumbing.
  rewrite Hsd, Hdt. plumbing.
  destruct (float_gtb _ _); plumbing; rewrite ?Hsd; reflexivity.
Qed.

(** ** The three zones *)

Lemma response_flags d w s s' r :
  _response d w s = (s', inr r) -> drift r = d /\ warning r = w.
Proof.
  unfold _response. unfold_M. destruct (std_distance_error s); [|discriminate].
  intro H. injection H as _ <-. split; reflexivity.
Qed.

Lemma hook_then_response_flags (hook : M unit) d w s s' r :
  (hook ;; _response d w) s = (s', inr r) -> drift r = d /\ warning r = w.
Proof.
  unfold bind at 1. destruct (hook s) as [s3 [e|[]]]; [discriminate|].
  apply response_flags.
Qed.

(* lines 434-459 by cases: which hook runs, and the flags of the response *)
Lemma zone_decision_cases X y s2 :
  zone_decision X y s2 =
    let p := np_divide (distance_threshold s2) (max_distance_threshold s2) in
    if float_ltb p (Config.beta (config (base s2)))
    then (_drift_case X y ;; _response true true) s2
    else if float_ltb p (Config.alpha (config (base s2)))
         then (_warning_case X y ;; _response false true) s2
         else (_normal_case y ;; _response false false) s2.
Proof.
  unfold zone_decision, _check_case. unfold bind, gets, ret. cbv zeta.
  destruct (float_ltb _ (Config.beta _)).
  - destruct (_drift_case X y s2) as [s3 [e|[]]]; reflexivity.
  - destruct (float_ltb _ (Config.alpha _)).
    + destruct (_warning_case X y s2) as [s3 [e|[]]]; reflexivity.
    + destruct (_normal_case y s2) as [s3 [e|[]]]; reflexivity.
Qed.

(** C4 (as amended). When [update] reaches the zone decision, with
    p = distance_threshold / max_distance_threshold: for p < beta it runs
    the drift hook and answers drift and warning; for beta <= p < alpha it
    runs the warning hook and answers warning only; for p >= alpha and
    p >= beta it runs the normal hook and answers neither.  The zones are
    tested in this order, so p >= alpha alone decides nothing when
    beta > alpha. *)
Theorem zone_decision_flags (y : Labels) (s s1 s2 : EDDM) (X' : Features) (y' : Labels) :
  before_threshold np_sqrt y s = (s1, inr (Continue (X', y'))) ->
  threshold_step s1 = (s2, inr false) ->
  let p := np_divide (distance_threshold s2) (max_distance_threshold s2) in
  let alpha := Config.alpha (config (base s2)) in
  let beta := Config.beta (config (base s2)) in
  (float_ltb p beta = true ->
     update np_sqrt y s = (_drift_case X' y' ;; _response true true) s2) /\
  (float_geb p beta = true -> float_ltb p alpha = true ->
     update np_sqrt y s = (_warning_case X' y' ;; _response false true) s2) /\
  (float_geb p alpha = true -> float_geb p beta = true ->
     update np_sqrt y s = (_normal_case y' ;; _response false false) s2) /\
  (forall s' r, update np_sqrt y s = (s', inr r) ->
     (float_ltb p beta = true -> drift r = true /\ warning r = true) /\
     (float_geb p beta = true -> float_ltb p alpha = true ->
        drift r = false /\ warning r = true) /\
     (float_geb p alpha = true -> float_geb p beta = true ->
        drift r = false /\ warning r = false)).
Proof.
  intros E1 E2 p alpha beta.
  assert (Hzone : update np_sqrt y s = zone_decision X' y' s2).
  { rewrite update_stages. unfold update_in_stages.
    rewrite (bind_ret _ _ _ _ _ E1). cbv beta iota.
    rewrite (bind_ret _ _ _ _ _ E2). reflexivity. }
  rewrite Hzone, zone_decision_cases. cbv zeta. fold p alpha beta.
  assert (drift_zone : float_ltb p beta = true ->
            (if float_ltb p beta
             then (_drift_case X' y' ;; _response true true) s2
             else if float_ltb p alpha
                  then (_warning_case X' y' ;; _response false true) s2
                  else (_normal_case y' ;; _response false false) s2)
            = (_drift_case X' y' ;; _response true true) s2)
    by (intros ->; reflexivity).
  assert (warning_zone : float_geb p beta = true -> float_ltb p alpha = true ->
            (if float_ltb p beta
             then (_drift_case X' y' ;; _response true true) s2
             else if float_ltb p alpha
                  then (_warning_case X' y' ;; _response false true) s2
                  else (_normal_case y' ;; _response false false) s2)
            = (_warning_case X' y' ;; _response false true) s2)
    by (intros Hb ->; rewrite (float_geb_not_ltb _ _ Hb); reflexivity).
  assert (normal_zone : float_geb p alpha = true -> float_geb p beta = true ->
            (if float_ltb p beta
             then (_drift_case X' y' ;; _response true true) s2
             else if float_ltb p alpha
                  then (_warning_case X' y' ;; _response false true) s2
                  else (_normal_case y' ;; _response false false) s2)
            = (_normal_case y' ;; _response false false) s2)
    by (intros Ha Hb; rewrite (float_geb_not_ltb _ _ Hb), (float_geb_not_ltb _ _ Ha);
        reflexivity).
  split; [exact drift_zone|]. split; [exact warning_zone|].
  split; [exact normal_zone|].
  intros s' r Hr. split; [|split].
  - intro H. rewrite (drift_zone H) in Hr.
    exact (hook_then_response_flags _ _ _ _ _ _ Hr).
  - intros Hb Ha. rewrite (warning_zone Hb Ha) in Hr.
    exact (hook_then_response_flags _ _ _ _ _ _ Hr).
  - intros Ha Hb. rewrite (normal_zone Ha Hb) in Hr.
    exact (hook_then_response_flags _ _ _ _ _ _ Hr).
Qed.

End DetectorFacts.


(** ** What line 372 selects *)

Lemma first_row_argwhere (mask : list bool) : forall (k : nat) (row : list nat),
  first_row (argwhere_from k mask) = inr row ->
  exists i, row = [(k + i)%nat] /\ nth_error mask i = Some true.
Proof.
  induction mask as [|b mask IH]; intros k row H; simpl in H.
  - discriminate.
  - destruct b.
    + injection H as <-. exists 0%nat. rewrite Nat.add_0_r. split; reflexivity.
    + destruct (IH _ _ H) as (i & -> & Hi). exists (S i).
      rewrite Nat.add_succ_r. split; [reflexivity | exact Hi].
Qed.

Lemma nth_error_equal_labels (y : Labels) : forall (y_pred : Labels) (i : nat),
  nth_error (np_invert (zip_with label_ne y y_pred)) i = Some true ->
  exists a, nth_error y i = Some a /\ nth_error y_pred i = Some a.
Proof.
  induction y as [|a y IH]; intros [|b y_pred] [|i] H; simpl in H; try discriminate.
  - injection H as H. unfold label_ne in H. rewrite negb_involutive in H.
    apply Z.eqb_eq in H. subst b. exists a. split; reflexivity.
  - exact (IH _ _ H).
Qed.


Lemma misclassified_from_lower_bound (y : Labels) : forall (y_pred : Labels) (k i : nat),
  In i (misclassified_from k y y_pred) -> (k <= i)%nat.
Proof.
  induction y as [|a y IH]; intros [|b y_pred] k i H; simpl in H; try contradiction.
  destruct (label_ne a b).
  - destruct H as [<-|H]; [lia|]. apply IH in H. lia.
  - apply IH in H. lia.
Qed.

Lemma no_correct_position (y : Labels) : forall (y_pred : Labels) (k : nat),
  length y = length y_pred ->
  argwhere_from k (np_invert (zip_with label_ne y y_pred)) = [] <->
  misclassified_from k y y_pred = seq k (length y).
Proof.
  induction y as [|a y IH]; intros [|b y_pred] k Hlen; simpl in Hlen; try discriminate.
  - simpl. tauto.
  - injection Hlen as Hlen. simpl. destruct (label_ne a b); simpl.
    + rewrite (IH y_pred (S k) Hlen). split; [congruence|].
      intro H. now injection H.
    + split; [discriminate|]. intro H. exfalso.
      assert (Hk : In k (misclassified_from (S k) y y_pred))
        by (rewrite H; left; reflexivity).
      apply misclassified_from_lower_bound in Hk. lia.
Qed.


(** ** Runs on concrete inputs *)

Ltac absurd_guard :=
  match goal with
  | H : _ = _ |- _ => solve [vm_compute in H; discriminate H]
  end.

(* a leaf of the case analysis of a concrete run: the value is there, or a
   guard was decided against what it evaluates to *)
Ltac concrete_leaf :=
  plumbing; first [ solve [vm_compute; reflexivity] | exfalso; absurd_guard ].

Ltac run_update :=
  unfold update, fresh_detector, EDDM_init; unfold_M;
  cbn -[Qltb Qdiv Qplus Qminus Qmult inject_Z];
  repeat branch; concrete_leaf.

(** C1, at a failing input.  True labels 0, 0, 1 against predictions
    1, 1, 1: positions 0 and 1 are misclassified, yet line 372 selects
    position 2, where the prediction is right, and
    [num_misclassified_instances] goes from 0 to 1, not to 2.  True labels
    0, 0 against predictions 1, 1: both positions are misclassified, line 372
    raises the IndexError that the handler takes for a batch without
    misclassifications, and the counter stays at 0.  This for any square
    root and any hooks. *)
Theorem update_selects_first_correct_position (np_sqrt : Q -> Q) (hooks : Hooks) :
  misclassified_positions [0; 0; 1]%Z [1; 1; 1]%Z = [0; 1]%nat /\
  misclassified_idxs [0; 0; 1]%Z [1; 1; 1]%Z = inr (Some [2%nat]) /\
  num_misclassified_instances (fresh_detector [1; 1; 1]%Z) = 0%Z /\
  num_misclassified_instances
    (fst (update np_sqrt [0; 0; 1]%Z (fresh_detector [1; 1; 1]%Z))) = 1%Z /\
  misclassified_positions [0; 0]%Z [1; 1]%Z = [0; 1]%nat /\
  misclassified_idxs [0; 0]%Z [1; 1]%Z = inr None /\
  num_misclassified_instances
    (fst (update np_sqrt [0; 0]%Z (fresh_detector [1; 1]%Z))) = 0%Z.
Proof.
  split; [reflexivity|]. split; [reflexivity|]. split; [reflexivity|].
  split; [run_update|].
  split; [reflexivity|]. split; [reflexivity|].
  run_update.
Qed.

(** C2, at a failing input.  True labels 1, 1, 1 against predictions
    1, 1, 1: no position is misclassified, yet the call does not return at
    lines 377-379; it counts one misclassification and moves
    [mean_distance_error] from 0 to 2, for any square root and any hooks.
    In the same way the first batch of the example detector, ten right
    predictions, raises [max_distance_threshold] from minus infinity to 9. *)
Theorem update_on_correct_batch_changes_statistics (np_sqrt : Q -> Q) (hooks : Hooks) :
  misclassified_positions [1; 1; 1]%Z [1; 1; 1]%Z = [] /\
  mean_distance_error (fresh_detector [1; 1; 1]%Z) == 0 /\
  mean_distance_error
    (fst (update np_sqrt [1; 1; 1]%Z (fresh_detector [1; 1; 1]%Z))) == 2 /\
  num_misclassified_instances
    (fst (update np_sqrt [1; 1; 1]%Z (fresh_detector [1; 1; 1]%Z))) = 1%Z /\
  misclassified_positions ten_ones ten_ones = [] /\
  max_distance_threshold (example_detector example_config) = NegInf /\
  exists q, max_distance_threshold (after_first_batch example_config) = Fin q /\ q == 9.
Proof.
  split; [reflexivity|]. split; [reflexivity|].
  split; [run_update|]. split; [run_update|].
  split; [reflexivity|]. split; [reflexivity|].
  eexists. split; [vm_compute; reflexivity | vm_compute; reflexivity].
Qed.

(** C7, at a failing input.  [__init__] gives a value to eight attributes
    and none to [std_distance_error] (nor does [_reset]); only line 399
    assigns it.  On a new detector, true labels 0, 0 against predictions
    1, 1: line 372 raises IndexError, the early return builds the normal
    response, which reads [std_distance_error], and the call raises
    AttributeError.  After the call the attribute still has no value, so it
    is not a number that is at least 0.  This for any square root and any
    hooks. *)
Theorem update_leaves_std_unassigned (np_sqrt : Q -> Q) (hooks : Hooks) :
  (forall b, std_distance_error (EDDM_init b) = None) /\
  update np_sqrt [0; 0]%Z (fresh_detector [1; 1]%Z)
    = (with_base (store_num_instances 2)
         (with_base (store_delayed_predictions []) (fresh_detector [1; 1]%Z)),
       inl (AttributeError "_std_distance_error")) /\
  std_distance_error (fst (update np_sqrt [0; 0]%Z (fresh_detector [1; 1]%Z))) = None /\
  snd (get_std_distance_error (fst (update np_sqrt [0; 0]%Z (fresh_detector [1; 1]%Z))))
    = inl (AttributeError "_std_distance_error").
Proof.
  split; [reflexivity|]. split; [reflexivity|]. split; reflexivity.
Qed.

(** ** The theorems at concrete inputs *)

Lemma update_not_fitted_witness :
  update sqrt_floor (hooks := idle_hooks) [1%Z]
    (EDDM_init (mkBase false Config.default_config [([[0]], [1%Z])] 0 [] [] false))
  = (EDDM_init (mkBase false Config.default_config [([[0]], [1%Z])] 0 [] [] false),
     inl NotFittedError).
Proof.
  apply (@update_not_fitted sqrt_floor idle_hooks). reflexivity.
Defined.

Lemma update_empty_buffer_witness :
  update sqrt_floor (hooks := idle_hooks) [1%Z]
    (EDDM_init (mkBase true Config.default_config [] 0 [] [] false))
  = (EDDM_init (mkBase true Config.default_config [] 0 [] [] false),
     inl EmptyBufferError).
Proof.
  apply (@update_empty_buffer sqrt_floor idle_hooks); reflexivity.
Defined.

Lemma max_distance_threshold_nondecreasing_witness :
  nondecreasing
    (map max_distance_threshold
       (example_detector example_config
          :: run_updates sqrt_floor (hooks := idle_hooks) [ten_ones; [1%Z]]
               (example_detector example_config))).
Proof.
  apply (@max_distance_threshold_nondecreasing sqrt_floor idle_hooks).
  - repeat split; intros; intros s H; simpl; apply float_le_refl, H.
  - discriminate.
Defined.

Lemma threshold_and_new_maximum_witness :
  exists sd,
    std_distance_error (example_at_threshold example_config) = Some sd /\
    let dt := float_add (Fin (mean_distance_error (example_at_threshold example_config)))
                (float_mul
                   (Config.level (config (base (example_at_threshold example_config))))
                   (Fin sd)) in
    let s2 := store_distance_threshold dt (example_at_threshold example_config) in
    if float_gtb dt (max_distance_threshold (example_at_threshold example_config))
    then update sqrt_floor (hooks := idle_hooks) [1%Z] (after_first_batch example_config) =
           (store_max_distance_threshold dt s2,
            inr (mkResponse false false dt dt
                   (mean_distance_error (example_at_threshold example_config)) sd))
    else update sqrt_floor (hooks := idle_hooks) [1%Z] (after_first_batch example_config) =
           zone_decision (hooks := idle_hooks) [[0]] [1%Z] s2.
Proof.
  apply (@threshold_and_new_maximum sqrt_floor idle_hooks [1%Z]
           (after_first_batch example_config) (example_at_threshold example_config)
           [[0]] [1%Z]).
  - vm_compute. reflexivity.
  - intros X y s H. exact H.
  - vm_compute. reflexivity.
Defined.

Lemma zone_decision_flags_witness :
  update sqrt_floor (hooks := idle_hooks) [1%Z] (after_first_batch example_config) =
    (@_drift_case idle_hooks [[0]] [1%Z] ;; _response true true)%eddm
      (example_at_zone example_config).
Proof.
  apply (proj1 (@zone_decision_flags sqrt_floor idle_hooks [1%Z]
                  (after_first_batch example_config)
                  (example_at_threshold example_config)
                  (example_at_zone example_config) [[0]] [1%Z]
                  ltac:(vm_compute; reflexivity) ltac:(vm_compute; reflexivity))).
  vm_compute. reflexivity.
Defined.

(** C4, as it is stated, fails.  The constructor accepts alpha = 0.95 with
    beta = 0.9, and [config.alpha = 0.5] is then stored unchecked.  After a
    batch of ten and a batch of one, the thresholds are 9 and then 7, so
    p = 7/9: this is p >= alpha, for which the claim promises drift = false
    and warning = false, and the call returns drift = true and
    warning = true, because p < beta is tested first. *)
Lemma zone_claim_fails_when_beta_exceeds_alpha :
  Config.EDDMConfig_init (Fin 0.95) (Fin 0.9) (Fin 0.5) 0 0 = inr example_config /\
  Config.set_alpha (Fin 0.5) example_config = inr mutated_config /\
  before_threshold sqrt_floor (hooks := idle_hooks) [1%Z] (after_first_batch mutated_config)
    = (example_at_threshold mutated_config, inr (Continue ([[0]], [1%Z]))) /\
  threshold_step (example_at_threshold mutated_config)
    = (example_at_zone mutated_config, inr false) /\
  (exists q,
     np_divide (distance_threshold (example_at_zone mutated_config))
       (max_distance_threshold (example_at_zone mutated_config)) = Fin q /\
     q == 7 / 9) /\
  float_geb
    (np_divide (distance_threshold (example_at_zone mutated_config))
       (max_distance_threshold (example_at_zone mutated_config)))
    (Config.alpha (config (base (example_at_zone mutated_config)))) = true /\
  exists s' r,
    update sqrt_floor (hooks := idle_hooks) [1%Z] (after_first_batch mutated_config)
      = (s', inr r) /\
    drift r = true /\ warning r = true.
Proof.
  split; [reflexivity|]. split; [reflexivity|].
  split; [vm_compute; reflexivity|]. split; [vm_compute; reflexivity|].
  split; [eexists; split; vm_compute; reflexivity|].
  split; [vm_compute; reflexivity|].
  eexists. eexists. split; [vm_compute; reflexivity|].
  split; reflexivity.
Qed.

(** * Further properties *)

(** ** Configuration: guarded assignments *)

Module ConfigOpsFacts.
Import Config ConfigOps.

(* what a passed guard says of a value that is a number *)
Lemma passed_above_zero (v : float) :
  v <> NaN -> float_leb v (Fin 0) = false -> float_ltb (Fin 0) v = true.
Proof. intro H. apply float_leb_false; [exact H | discriminate]. Qed.

Lemma passed_below (v a : float) :
  v <> NaN -> a <> NaN -> float_geb v a = false -> float_ltb v a = true.
Proof. intros Hv Ha. unfold float_geb. now apply float_leb_false. Qed.

Lemma float_ltb_number_r (a b : float) : float_ltb a b = true -> b <> NaN.
Proof. destruct a, b; simpl; congruence. Qed.

Lemma float_ltb_number_l (a b : float) : float_ltb a b = true -> a <> NaN.
Proof. destruct a, b; simpl; congruence. Qed.

(** X20. On arguments that are numbers or infinities (anything but nan),
    the constructor enforces the rules: a construction that returns a
    configuration stores the arguments, and they satisfy 0 < beta < alpha
    and level > 0; a construction whose arguments break one of these rules
    raises the ValueError that the specification calls ConfigurationError;
    this is what happens for beta = 0.9 with alpha = 0.5. *)
Theorem EDDMConfig_init_enforces_rules_on_numbers (a b l : float) (mmi mni : Z) :
  a <> NaN -> b <> NaN -> l <> NaN ->
  (forall cfg, EDDMConfig_init a b l mmi mni = inr cfg ->
     cfg = mkConfig a b l mmi mni /\
     float_ltb (Fin 0) (beta cfg) = true /\
     float_ltb (beta cfg) (alpha cfg) = true /\
     float_gtb (level cfg) (Fin 0) = true) /\
  (~ (float_ltb (Fin 0) b = true /\ float_ltb b a = true /\
      float_gtb l (Fin 0) = true) ->
     exists e, EDDMConfig_init a b l mmi mni = inl e /\ ConfigurationError e) /\
  (exists e, EDDMConfig_init (Fin 0.5) (Fin 0.9) l mmi mni = inl e /\
             ConfigurationError e).
Proof.
  intros Ha Hb Hl.
  assert (accepted : forall cfg, EDDMConfig_init a b l mmi mni = inr cfg ->
            cfg = mkConfig a b l mmi mni /\
            float_ltb (Fin 0) (beta cfg) = true /\
            float_ltb (beta cfg) (alpha cfg) = true /\
            float_gtb (level cfg) (Fin 0) = true).
  { intros cfg. unfold EDDMConfig_init, bindE, alpha_setter.
    destruct (DDMBaseConfig_init mni) as [|mni'] eqn:Eb0; [discriminate|].
    destruct (beta_setter a b) as [|b'] eqn:Eb; [discriminate|].
    destruct (level_setter l) as [|l'] eqn:El; [discriminate|].
    destruct (min_num_misclassified_instances_setter mmi) as [|mmi'] eqn:Em;
      [discriminate|].
    intro H; injection H as <-.
    apply ConfigFacts.beta_setter_ok in Eb as (-> & Hb0 & Hba).
    apply ConfigFacts.level_setter_ok in El as (-> & Hl0).
    unfold DDMBaseConfig_init in Eb0. destruct (mni <? 0)%Z; [discriminate|].
    injection Eb0 as <-.
    unfold min_num_misclassified_instances_setter in Em.
    destruct (mmi <? 0)%Z; [discriminate|]. injection Em as <-.
    cbn [alpha beta level]. unfold float_gtb.
    repeat split; auto using passed_above_zero, passed_below. }
  split; [exact accepted|]. split.
  - intro H.
    destruct (EDDMConfig_init a b l mmi mni) as [e|cfg] eqn:E.
    + exists e. split; [reflexivity|].
      eapply ConfigFacts.init_raises_only_ValueError; eassumption.
    + exfalso. apply H.
      destruct (accepted cfg eq_refl) as (-> & H0 & H1 & H2). auto.
  - destruct (EDDMConfig_init (Fin 0.5) (Fin 0.9) l mmi mni) as [e|cfg] eqn:E.
    + exists e. split; [reflexivity|].
      eapply ConfigFacts.init_raises_only_ValueError; eassumption.
    + exfalso. revert E. unfold EDDMConfig_init, bindE, alpha_setter.
      destruct (DDMBaseConfig_init mni); [discriminate|].
      change (beta_setter (Fin 0.5) (Fin 0.9))
        with (@inl Exn float (ValueError "beta must be less than alpha.")).
      discriminate.
Qed.

Lemma EDDMConfig_init_enforces_rules_on_numbers_witness :
  exists e, EDDMConfig_init (Fin 0.95) (Fin 0.9) NegInf 30 30 = inl e /\
            ConfigurationError e.
Proof.
  apply (proj1 (proj2 (EDDMConfig_init_enforces_rules_on_numbers
                         (Fin 0.95) (Fin 0.9) NegInf 30 30
                         ltac:(discriminate) ltac:(discriminate) ltac:(discriminate)))).
  intros (_ & _ & H). discriminate H.
Defined.

Lemma after_assignment_valid (self : EDDMConfig) (a : assignment) :
  assigns_nan a = false -> valid self -> valid (after_assignment self a).
Proof.
  intros Hnan (Hb & Hba & Hl & Hm). unfold after_assignment, assign.
  destruct a as [v|v|v].
  - unfold set_beta, bindE. destruct (beta_setter (alpha self) v) as [e|b] eqn:E.
    + repeat split; assumption.
    + apply ConfigFacts.beta_setter_ok in E as (-> & H0 & H1).
      assert (Hv : v <> NaN) by (intros ->; discriminate Hnan).
      repeat split; cbn [alpha beta level min_num_misclassified_instances];
        eauto using passed_above_zero, passed_below, float_ltb_number_r.
  - unfold set_level, bindE. destruct (level_setter v) as [e|l] eqn:E.
    + repeat split; assumption.
    + apply ConfigFacts.level_setter_ok in E as (-> & H0).
      assert (Hv : v <> NaN) by (intros ->; discriminate Hnan).
      repeat split; cbn [alpha beta level min_num_misclassified_instances];
        eauto using passed_above_zero.
  - unfold set_min_num_misclassified_instances, bindE,
      min_num_misclassified_instances_setter.
    destruct (v <? 0)%Z eqn:E.
    + repeat split; assumption.
    + apply Z.ltb_ge in E. repeat split; assumption.
Qed.

Lemma assignments_keep_valid (ops : list assignment) : forall self : EDDMConfig,
  forallb (fun a => negb (assigns_nan a)) ops = true ->
  valid self -> valid (fold_left after_assignment ops self).
Proof.
  induction ops as [|a ops IH]; intros self Hnan H; simpl.
  - exact H.
  - simpl in Hnan. apply andb_true_iff in Hnan as (Ha & Hops).
    apply negb_true_iff in Ha.
    apply IH; [exact Hops|]. now apply after_assignment_valid.
Qed.

(** X1. On a configuration that satisfies 0 < beta < alpha, level > 0 and
    min_num_misclassified_instances >= 0, no sequence of assignments to
    beta, level and min_num_misclassified_instances, accepted or refused,
    breaks any of these, as long as no assigned value is nan: the guards of
    the three setters keep them.  An assignment of nan to beta or to level
    is accepted and breaks them. *)
Theorem guarded_assignments_keep_valid (self : EDDMConfig) (ops : list assignment) :
  forallb (fun a => negb (assigns_nan a)) ops = true ->
  valid self ->
  valid (fold_left after_assignment ops self) /\
  ~ valid (after_assignment self (AssignBeta NaN)) /\
  ~ valid (after_assignment self (AssignLevel NaN)).
Proof.
  intros Hnan H. split; [now apply assignments_keep_valid|].
  split; intros (H0 & H1 & H2 & _); revert H0 H1 H2;
    unfold after_assignment, assign, set_beta, set_level, bindE, beta_setter,
      level_setter, float_geb; simpl;
    destruct (alpha self); simpl; discriminate.
Qed.

Lemma guarded_assignments_keep_valid_witness :
  valid (fold_left after_assignment
           [AssignBeta (Fin 0.99); AssignLevel (Fin (-1)); AssignBeta (Fin 0.5);
            AssignLevel PosInf; AssignMinMisclassified 3]
           default_config).
Proof.
  apply guarded_assignments_keep_valid.
  - reflexivity.
  - unfold valid; simpl. repeat split; lia.
Defined.

(** X2. An assignment to beta of a value that is not nan, on a
    configuration whose alpha is not nan, is accepted exactly for
    0 < value < alpha (both bounds refused), and then only beta changes; a
    refused one raises the ValueError of lines 80 or 82.  A value of nan is
    accepted. *)
Theorem set_beta_accepts_open_interval (value : float) (self : EDDMConfig) :
  value <> NaN -> alpha self <> NaN ->
  (float_ltb (Fin 0) value = true /\ float_ltb value (alpha self) = true ->
     set_beta value self =
       inr (mkConfig (alpha self) value (level self)
              (min_num_misclassified_instances self) (min_num_instances self))) /\
  (~ (float_ltb (Fin 0) value = true /\ float_ltb value (alpha self) = true) ->
     exists msg, set_beta value self = inl (ValueError msg)) /\
  set_beta NaN self =
    inr (mkConfig (alpha self) NaN (level self)
           (min_num_misclassified_instances self) (min_num_instances self)).
Proof.
  intros Hv Ha. unfold set_beta, bindE, beta_setter. split; [|split].
  - intros (H0 & H1).
    apply float_ltb_not_leb in H0. apply float_ltb_not_leb in H1.
    unfold float_geb. now rewrite H0, H1.
  - intro H. destruct (float_leb value (Fin 0)) eqn:E0; [eauto|].
    destruct (float_geb value (alpha self)) eqn:E1; [eauto|].
    exfalso. apply H. auto using passed_above_zero, passed_below.
  - unfold float_geb. destruct (alpha self); reflexivity.
Qed.

Lemma set_beta_accepts_open_interval_witness :
  set_beta (Fin 0.5) default_config = inr (mkConfig (Fin 0.95) (Fin 0.5) (Fin 2) 30 30) /\
  exists msg, set_beta (Fin 0.95) default_config = inl (ValueError msg).
Proof.
  split.
  - apply (proj1 (set_beta_accepts_open_interval (Fin 0.5) default_config
                    ltac:(discriminate) ltac:(discriminate))).
    split; reflexivity.
  - apply (proj1 (proj2 (set_beta_accepts_open_interval (Fin 0.95) default_config
                           ltac:(discriminate) ltac:(discriminate)))).
    intros (_ & H). discriminate H.
Defined.

End ConfigOpsFacts.

(** ** CVMTest *)

Module CVMFacts.
Import CVM.

Section Reference.

Variable E : Type.
Variable check_array : Array -> E + Array.

Lemma after_set_X_ref_checked (self : CVMTest) (value : option Array) :
  reference_checked E check_array self ->
  reference_checked E check_array (after_set_X_ref_ E check_array self value).
Proof.
  intro H. unfold after_set_X_ref_, set_X_ref_, _check_sufficient_samples.
  destruct value as [X|].
  - destruct (length X <? 2)%nat eqn:Elen; [exact H|].
    destruct (check_array X) as [e|X'] eqn:Ec; [exact H|].
    intros X'' Hx. simpl in Hx. injection Hx as <-.
    exists X. split; [|exact Ec]. apply Nat.ltb_ge in Elen. exact Elen.
  - intros X' Hx. discriminate Hx.
Qed.

(** X3. Whatever is assigned to [X_ref_], in any order and whether the
    assignments are accepted or raise, the reference the estimator holds is
    None or the output of [check_array] on an array of at least two
    samples: a shorter array is refused before it is stored. *)
Theorem X_ref_always_checked (self : CVMTest) (values : list (option Array)) :
  reference_checked E check_array self ->
  reference_checked E check_array
    (fold_left (after_set_X_ref_ E check_array) values self).
Proof.
  revert self. induction values as [|v values IH]; intros self H; simpl.
  - exact H.
  - apply IH, after_set_X_ref_checked, H.
Qed.

End Reference.

Lemma X_ref_always_checked_witness :
  reference_checked unit (fun X => inr X)
    (fold_left (after_set_X_ref_ unit (fun X => inr X))
       [Some [[1]]; Some [[1]; [2]]; None; Some [[3]; [4]; [5]]]
       (mkCVMTest None)).
Proof.
  apply X_ref_always_checked. intros X' H. discriminate H.
Defined.

End CVMFacts.

(** ** What line 372 selects, continued *)

Lemma first_row_argwhere_first (mask : list bool) : forall (k : nat) (row : list nat),
  first_row (argwhere_from k mask) = inr row ->
  exists i, row = [(k + i)%nat] /\ nth_error mask i = Some true /\
            forall j, (j < i)%nat -> nth_error mask j = Some false.
Proof.
  induction mask as [|b mask IH]; intros k row H; simpl in H.
  - discriminate.
  - destruct b.
    + injection H as <-. exists 0%nat. rewrite Nat.add_0_r.
      repeat split. intros j Hj. lia.
    + destruct (IH _ _ H) as (i & -> & Hi & Hfirst). exists (S i).
      rewrite Nat.add_succ_r. repeat split; [exact Hi|].
      intros [|j] Hj; [reflexivity|]. simpl. apply Hfirst. lia.
Qed.

Lemma nth_error_different_labels (y : Labels) : forall (y_pred : Labels) (j : nat),
  nth_error (np_invert (zip_with label_ne y y_pred)) j = Some false ->
  exists a b, nth_error y j = Some a /\ nth_error y_pred j = Some b /\ a <> b.
Proof.
  induction y as [|a y IH]; intros [|b y_pred] [|j] H; simpl in H; try discriminate.
  - injection H as H. unfold label_ne in H. rewrite negb_involutive in H.
    apply Z.eqb_neq in H. exists a, b. repeat split. exact H.
  - exact (IH _ _ H).
Qed.

Lemma nth_error_some_lt {A} (l : list A) (i : nat) (a : A) :
  nth_error l i = Some a -> (i < length l)%nat.
Proof. intro H. apply nth_error_Some. congruence. Qed.

(* whatever the shapes, a selection is one position *)
Lemma misclassified_idxs_singleton (y y_pred : Labels) (idxs : list nat) :
  misclassified_idxs y y_pred = inr (Some idxs) -> length idxs = 1%nat.
Proof.
  unfold misclassified_idxs. destruct (np_not_equal y y_pred) as [e|mask]; [discriminate|].
  unfold np_argwhere.
  destruct (first_row _) as [[]|row] eqn:E; try discriminate.
  intro H. injection H as <-.
  destruct (first_row_argwhere _ _ _ E) as (i & -> & _). reflexivity.
Qed.

(* a selection needs a batch of predictions that is not empty *)
Lemma misclassified_idxs_nonempty_batch (y y_pred : Labels) (idxs : list nat) :
  misclassified_idxs y y_pred = inr (Some idxs) -> (1 <= length y_pred)%nat.
Proof.
  unfold misclassified_idxs, np_not_equal.
  destruct (length y =? length y_pred)%nat eqn:Elen.
  - apply Nat.eqb_eq in Elen. unfold np_argwhere.
    destruct (first_row _) as [[]|row] eqn:E; try discriminate.
    intros _. destruct (first_row_argwhere _ _ _ E) as (i & _ & Hi).
    destruct (nth_error_equal_labels _ _ _ Hi) as (a & _ & Hb).
    apply nth_error_some_lt in Hb. lia.
  - destruct y as [|a [|a' y]]; destruct y_pred as [|b [|b' y_pred]];
      simpl in *; try discriminate; intros _; lia.
Qed.

(** X4. For a batch of labels and predictions of the same length, what
    line 372 calls misclassified_idxs is the single position of the first
    prediction that is right: the labels agree there and differ at every
    earlier position. *)
Theorem misclassified_idxs_is_first_correct_position
    (y y_pred : Labels) (idxs : list nat) :
  length y = length y_pred ->
  misclassified_idxs y y_pred = inr (Some idxs) ->
  exists i a,
    idxs = [i] /\ nth_error y i = Some a /\ nth_error y_pred i = Some a /\
    forall j, (j < i)%nat ->
      exists b c, nth_error y j = Some b /\ nth_error y_pred j = Some c /\ b <> c.
Proof.
  intros Hlen. unfold misclassified_idxs, np_not_equal.
  rewrite Hlen, Nat.eqb_refl. unfold np_argwhere.
  destruct (first_row _) as [[]|row] eqn:E; try discriminate.
  intro H. injection H as <-.
  destruct (first_row_argwhere_first _ _ _ E) as (i & -> & Hi & Hfirst).
  destruct (nth_error_equal_labels _ _ _ Hi) as (a & Ha & Hb).
  exists i, a. repeat split; auto.
  intros j Hj. apply nth_error_different_labels, Hfirst, Hj.
Qed.

Lemma misclassified_idxs_is_first_correct_position_witness :
  exists i a,
    [2%nat] = [i] /\ nth_error [0; 0; 1; 1]%Z i = Some a /\
    nth_error [1; 1; 1; 1]%Z i = Some a /\
    forall j, (j < i)%nat ->
      exists b c, nth_error [0; 0; 1; 1]%Z j = Some b /\
                  nth_error [1; 1; 1; 1]%Z j = Some c /\ b <> c.
Proof.
  apply (misclassified_idxs_is_first_correct_position [0; 0; 1; 1]%Z [1; 1; 1; 1]%Z);
    reflexivity.
Defined.

(** X5. For a batch of labels and predictions of the same length, the
    IndexError of line 372, which sends [update] to the early return of
    lines 377-379, is raised exactly when every position of the batch is
    misclassified (an empty batch included). *)
Theorem early_return_exactly_when_all_misclassified (y y_pred : Labels) :
  length y = length y_pred ->
  (misclassified_idxs y y_pred = inr None <->
   misclassified_positions y y_pred = seq 0 (length y)).
Proof.
  intro Hlen. unfold misclassified_positions.
  rewrite <- (no_correct_position y y_pred 0 Hlen).
  unfold misclassified_idxs, np_not_equal, np_argwhere.
  rewrite Hlen, Nat.eqb_refl.
  destruct (argwhere_from 0 _) as [|row rows]; simpl.
  - tauto.
  - split; discriminate.
Qed.

Lemma early_return_exactly_when_all_misclassified_witness :
  misclassified_idxs [0; 2]%Z [1; 1]%Z = inr None <->
  misclassified_positions [0; 2]%Z [1; 1]%Z = seq 0 (length [0; 2]%Z).
Proof.
  apply early_return_exactly_when_all_misclassified. reflexivity.
Defined.

(** ** More on [update] *)

(* what the hooks that ran say; the hypotheses are those of
   [update_hooks_stay_within], destructed *)
Ltac ran Hdrift Hwarning Hnormal Hcheck :=
  repeat match goal with
         | E : _drift_case ?X ?y ?st = (_, _) |- _ =>
             let H := fresh "Hran" in
             pose proof (Hdrift X y st) as H; rewrite E in H; clear E
         | E : _warning_case ?X ?y ?st = (_, _) |- _ =>
             let H := fresh "Hran" in
             pose proof (Hwarning X y st) as H; rewrite E in H; clear E
         | E : _normal_case ?y ?st = (_, _) |- _ =>
             let H := fresh "Hran" in
             pose proof (Hnormal y st) as H; rewrite E in H; clear E
         | E : _check_drift_insufficient_samples ?X ?y ?st = (_, _) |- _ =>
             let H := fresh "Hran" in
             pose proof (Hcheck X y st) as H; rewrite E in H; clear E
         end.

(* comparisons of integers as propositions, and what a selection tells *)
Ltac z_facts :=
  repeat match goal with
         | H : (_ <? _)%Z = true |- _ => apply Z.ltb_lt in H
         | H : (_ <? _)%Z = false |- _ => apply Z.ltb_ge in H
         | H : (_ =? _)%Z = true |- _ => apply Z.eqb_eq in H
         | H : (_ =? _)%Z = false |- _ => apply Z.eqb_neq in H
         | H : misclassified_idxs _ _ = inr (Some _) |- _ =>
             let Hs := fresh "Hone" in
             pose proof (misclassified_idxs_singleton _ _ _ H) as Hs;
             let Hn := fresh "Hbatch" in
             pose proof (misclassified_idxs_nonempty_batch _ _ _ H) as Hn;
             clear H
         end.

(* the entry that [popleft] took is the head that the hypothesis names (the
   case analysis has rewritten the hypothesis with what it found) *)
Ltac head_of_buffer Hbuf :=
  first [discriminate Hbuf | injection Hbuf as -> ->]; plumbing.

(* a call that returned: the cases of [update], with the result in [s'], [r] *)
Ltac returned_cases :=
  unfold update; unfold_M; repeat branch;
  let H := fresh "Hret" in
  intro H; try discriminate H; injection H as <- <-.

(** ** The ratio and the order of the thresholds *)



Lemma below_new_maximum (lvl : float) (l m sd : Q) :
  lvl = Fin l ->
  below (float_add (Fin m) (float_mul lvl (Fin sd)))
    (float_add (Fin m) (float_mul lvl (Fin sd))).
Proof.
  intros ->. simpl. apply Qle_bool_iff, Qle_refl.
Qed.

Lemma below_after_comparison (lvl : float) (l m sd : Q) (dt0 mx : float) :
  lvl = Fin l -> below dt0 mx ->
  float_gtb (float_add (Fin m) (float_mul lvl (Fin sd))) mx = false ->
  below (float_add (Fin m) (float_mul lvl (Fin sd))) mx.
Proof.
  intros ->. unfold below, float_gtb, float_le.
  destruct mx as [| | |x]; simpl; try congruence.
  - destruct dt0; simpl; congruence.
  - intros _ H. apply Qle_bool_iff. now apply Qltb_false.
Qed.

Section MoreDetectorFacts.

Variable np_sqrt : Q -> Q.
Context {hooks : Hooks}.

(** X6. A response that [update] returns never reports a drift without a
    warning: the flags are (false, false), (false, true) or (true, true). *)
Theorem drift_implies_warning (y : Labels) (s s' : EDDM) (r : Response) :
  update np_sqrt y s = (s', inr r) ->
  drift r = true -> warning r = true.
Proof.
  returned_cases; cbn [drift warning]; congruence.
Qed.

(** X7. A response that [update] returns reports the four numbers that the
    detector holds when the call ends: distance_threshold,
    max_distance_threshold, mean_distance_error and the assigned
    std_distance_error, also on the early returns and after the hooks. *)
Theorem response_reports_final_state (y : Labels) (s s' : EDDM) (r : Response) :
  update np_sqrt y s = (s', inr r) ->
  r_distance_threshold r = distance_threshold s' /\
  r_max_distance_threshold r = max_distance_threshold s' /\
  r_mean_distance_error r = mean_distance_error s' /\
  std_distance_error s' = Some (r_std_distance_error r).
Proof.
  returned_cases;
    cbn [r_distance_threshold r_max_distance_threshold r_mean_distance_error
         r_std_distance_error];
    plumbing; auto.
Qed.


(** X9. No alarm before the minimum counts.  A call of [update] that
    returns while [num_instances], the new batch counted, is below
    [min_num_instances] answers drift = false and warning = false; so does
    a call that finds the counter of misclassifications, raised by one,
    below [min_num_misclassified_instances], unless the
    insufficient-samples check is switched on. *)
Theorem no_alarm_below_minimum_counts
    (y : Labels) (s s' : EDDM) (r : Response)
    (X : Features) (y_pred : Labels) (rest : list (Features * Labels)) :
  delayed_predictions (base s) = (X, y_pred) :: rest ->
  ((num_instances (base s) + Z.of_nat (length y_pred)
    < Config.min_num_instances (config (base s)))%Z \/
   (_drift_insufficient_samples (base s) = false /\
    (num_misclassified_instances s + 1
     < Config.min_num_misclassified_instances (config (base s)))%Z)) ->
  update np_sqrt y s = (s', inr r) ->
  drift r = false /\ warning r = false.
Proof.
  intros Hbuf Hlow.
  returned_cases; head_of_buffer Hbuf; z_facts; cbn [drift warning];
    first [ split; reflexivity
          | exfalso; destruct Hlow as [Hlow|[Hoff Hlow]]; (lia || congruence) ].
Qed.

(** X10. A call of [update] on a fitted classifier with a pending batch
    removes exactly the oldest entry of the buffer and adds the number of
    its predictions to [num_instances], and this also when the call goes on
    to raise: the batch is consumed either way (the hooks being assumed to
    leave buffer and counter alone). *)
Theorem update_consumes_oldest_batch
    (y : Labels) (s : EDDM)
    (X : Features) (y_pred : Labels) (rest : list (Features * Labels)) :
  update_hooks_stay_within same_bookkeeping hooks ->
  estimator_fitted (base s) = true ->
  delayed_predictions (base s) = (X, y_pred) :: rest ->
  delayed_predictions (base (fst (update np_sqrt y s))) = rest /\
  num_instances (base (fst (update np_sqrt y s)))
    = (num_instances (base s) + Z.of_nat (length y_pred))%Z.
Proof.
  intros (Hdrift & Hwarning & Hnormal & Hcheck) Hfit Hbuf.
  unfold stays_within, same_bookkeeping in *.
  unfold update. unfold_M.
  repeat branch; try congruence; head_of_buffer Hbuf;
    ran Hdrift Hwarning Hnormal Hcheck; plumbing;
    repeat match goal with H : _ /\ _ |- _ => destruct H end;
    split; congruence.
Qed.

(** X11. [_reset] does what [super()._reset()] does and then stores the
    construction values in eight attributes, whatever they held: the guards
    of the setters cannot fire on these values.  It leaves
    [std_distance_error] as it was; and when [super()._reset()] raises,
    nothing is stored. *)
Theorem reset_restores_all_but_std (s : EDDM) :
  _reset s =
    match super_reset s with
    | (s0, inr _) =>
        (mkEDDM (base s0) 0 (Fin 0) 0 NegInf 0 0%Z 0 0 (std_distance_error s0), inr tt)
    | (s0, inl e) => (s0, inl e)
    end.
Proof.
  unfold _reset. unfold bind at 1.
  destruct (super_reset s) as [s0 [e|[]]]; reflexivity.
Qed.

(** *** The threshold stays below its maximum *)

(* [finite_level /\ threshold_below_maximum] of the state a leaf has reached *)
Ltac below_solver :=
  split;
  [ eexists; eassumption
  | first [ assumption
          | eapply below_new_maximum; eassumption
          | eapply below_after_comparison; eassumption ] ].

Ltac below_through_hooks :=
  repeat match goal with
         | H : ?pre /\ below ?dt ?mx -> _ |- _ =>
             let P := fresh "Hpre" in
             assert (P : pre /\ below dt mx) by below_solver;
             specialize (H P); clear P;
             destruct H as ((? & ?) & ?)
         end.

Lemma update_keeps_threshold_below_maximum :
  update_hooks_stay_within keeps_threshold_below_maximum hooks ->
  forall y, stays_within keeps_threshold_below_maximum (update np_sqrt y).
Proof.
  intros (Hdrift & Hwarning & Hnormal & Hcheck) y s ((l & Hl) & H0).
  unfold stays_within, keeps_threshold_below_maximum in *.
  unfold update. unfold_M.
  repeat branch; ran Hdrift Hwarning Hnormal Hcheck;
    unfold finite_level, threshold_below_maximum in *; plumbing;
    below_through_hooks; below_solver.
Qed.

Lemma reset_keeps_threshold_below_maximum :
  stays_within keeps_threshold_below_maximum super_reset ->
  stays_within keeps_threshold_below_maximum _reset.
Proof.
  intros Hsuper s H0. specialize (Hsuper s H0).
  unfold _reset. unfold_M.
  destruct (super_reset s) as [s0 [e|[]]]; [exact Hsuper|].
  cbn in *. destruct Hsuper as (Hl & _).
  split; [exact Hl|].
  exists 0. split; reflexivity.
Qed.

(** X12. With a level that is a finite number, [distance_threshold] never
    exceeds [max_distance_threshold]: either no maximum has been recorded
    and the threshold is 0, or the threshold is at most the maximum.  This
    holds at construction, and every call of [update] or [_reset],
    returning or raising, keeps it together with the level (the hooks being
    assumed to keep both). *)
Theorem threshold_never_exceeds_maximum :
  update_hooks_stay_within keeps_threshold_below_maximum hooks ->
  stays_within keeps_threshold_below_maximum super_reset ->
  (forall b, threshold_below_maximum (EDDM_init b)) /\
  (forall y s, finite_level s -> threshold_below_maximum s ->
     finite_level (fst (update np_sqrt y s)) /\
     threshold_below_maximum (fst (update np_sqrt y s))) /\
  (forall s, finite_level s -> threshold_below_maximum s ->
     finite_level (fst (_reset s)) /\ threshold_below_maximum (fst (_reset s))).
Proof.
  intros Hhooks Hsuper. split; [|split].
  - intro b. exists 0. split; reflexivity.
  - intros y s Hl H0.
    exact (update_keeps_threshold_below_maximum Hhooks y s (conj Hl H0)).
  - intros s Hl H0.
    exact (reset_keeps_threshold_below_maximum Hsuper s (conj Hl H0)).
Qed.

(** X13. The early return reads an attribute that may not exist.  When no
    prediction of the pending batch is right (line 372 raises IndexError),
    [update] consumes the batch and goes straight to the normal response;
    the response reads [std_distance_error], which only line 399 assigns.
    So the call returns the normal response, statistics untouched, if a
    statistics update has completed before, and raises AttributeError if
    not, as on a new detector. *)
Theorem early_return_reads_std
    (y : Labels) (s : EDDM)
    (X : Features) (y_pred : Labels) (rest : list (Features * Labels)) :
  estimator_fitted (base s) = true ->
  delayed_predictions (base s) = (X, y_pred) :: rest ->
  misclassified_idxs y y_pred = inr None ->
  update np_sqrt y s =
    (with_base
       (store_num_instances (num_instances (base s) + Z.of_nat (length y_pred)))
       (with_base (store_delayed_predictions rest) s),
     match std_distance_error s with
     | Some std =>
         inr (mkResponse false false (distance_threshold s)
                (max_distance_threshold s) (mean_distance_error s) std)
     | None => inl (AttributeError "_std_distance_error")
     end).
Proof.
  intros Hfit Hbuf Hidx.
  unfold update. unfold_M.
  repeat branch; try congruence; head_of_buffer Hbuf; congruence.
Qed.

(** *** The guards of the setters *)

Lemma inject_Z_nonneg (z : Z) : (0 <= z)%Z -> 0 <= inject_Z z.
Proof. intro H. change 0 with (inject_Z 0). now rewrite <- Zle_Qle. Qed.

Lemma inject_Z_pos (z : Z) : (1 <= z)%Z -> 0 < inject_Z z.
Proof. intro H. change 0 with (inject_Z 0). rewrite <- Zlt_Qlt. lia. Qed.

Lemma distance_nonneg (a : Q) (n len : Z) :
  a <= inject_Z n -> (1 <= len)%Z -> 0 <= inject_Z (n + len - 1) - a.
Proof.
  intros Ha Hlen.
  assert (H : inject_Z n <= inject_Z (n + len - 1)) by (rewrite <- Zle_Qle; lia).
  apply (Qplus_le_l _ _ a). ring_simplify. eapply Qle_trans; eassumption.
Qed.

Lemma mean_step_nonneg (m d : Q) (k : Z) :
  0 <= m -> 0 <= d -> (1 <= k)%Z -> 0 <= m + (d - m) / inject_Z k.
Proof.
  intros Hm Hd Hk.
  assert (Hpos : 0 < inject_Z k) by now apply inject_Z_pos.
  assert (Hk1 : 0 <= inject_Z k - 1).
  { apply (Qplus_le_l _ _ 1). ring_simplify.
    change 1 with (inject_Z 1). rewrite <- Zle_Qle. exact Hk. }
  setoid_replace (m + (d - m) / inject_Z k)
    with ((m * (inject_Z k - 1) + d) / inject_Z k)
    by (field; intro H; rewrite H in Hpos; exact (Qlt_irrefl _ Hpos)).
  apply Qle_shift_div_l; [exact Hpos|]. rewrite Qmult_0_l.
  setoid_replace 0 with (0 + 0) by ring.
  apply Qplus_le_compat; [|exact Hd].
  apply Qmult_le_0_compat; assumption.
Qed.

Lemma variance_step_nonneg (v m d : Q) (k : Z) :
  0 <= v -> (1 <= k)%Z ->
  0 <= v + (d - (m + (d - m) / inject_Z k)) * (d - m).
Proof.
  intros Hv Hk.
  assert (Hpos : 0 < inject_Z k) by now apply inject_Z_pos.
  assert (Hk1 : 0 <= inject_Z k - 1).
  { apply (Qplus_le_l _ _ 1). ring_simplify.
    change 1 with (inject_Z 1). rewrite <- Zle_Qle. exact Hk. }
  setoid_replace (v + (d - (m + (d - m) / inject_Z k)) * (d - m))
    with (v + ((d - m) * (d - m)) * ((inject_Z k - 1) / inject_Z k))
    by (field; intro H; rewrite H in Hpos; exact (Qlt_irrefl _ Hpos)).
  setoid_replace 0 with (0 + 0) by ring.
  apply Qplus_le_compat; [exact Hv|].
  apply Qmult_le_0_compat.
  - destruct (Qlt_le_dec (d - m) 0) as [Hneg|Hnn].
    + setoid_replace ((d - m) * (d - m)) with ((- (d - m)) * (- (d - m))) by ring.
      assert (0 <= - (d - m)).
      { apply (Qplus_le_l _ _ (d - m)). ring_simplify. now apply Qlt_le_weak. }
      now apply Qmult_le_0_compat.
    + now apply Qmult_le_0_compat.
  - apply Qle_shift_div_l; [exact Hpos|]. rewrite Qmult_0_l. exact Hk1.
Qed.

Lemma quotient_nonneg (v : Q) (k : Z) : 0 <= v -> (1 <= k)%Z -> 0 <= v / inject_Z k.
Proof.
  intros Hv Hk. apply Qle_shift_div_l; [now apply inject_Z_pos|].
  rewrite Qmult_0_l. exact Hv.
Qed.

Lemma actual_below_instances (a : Q) (n len : Z) :
  a <= inject_Z n -> (0 <= len)%Z -> a <= inject_Z (n + len).
Proof.
  intros Ha Hlen. eapply Qle_trans; [exact Ha|]. rewrite <- Zle_Qle. lia.
Qed.




(* [0 <= e] for the values that [update] stores, from the ranges of the
   state it started from and the guards it has passed *)
Ltac nonneg :=
  first
    [ assumption
    | apply guard_nonneg; assumption
    | apply Qle_refl
    | apply inject_Z_nonneg; lia
    | apply distance_nonneg; [assumption | lia]
    | apply mean_step_nonneg; [nonneg | nonneg | lia]
    | apply variance_step_nonneg; [nonneg | lia]
    | apply quotient_nonneg; [nonneg | lia]
    | match goal with
      | Hsqrt : forall x, 0 <= x -> 0 <= ?f x |- 0 <= ?f _ => apply Hsqrt; nonneg
      | Hstd : std_nonneg ?s, E : std_distance_error ?s = Some ?v |- 0 <= ?v =>
          exact (Hstd v E)
      end ].

(* [in_range] of the state a leaf has reached *)
Ltac range_solver :=
  unfold in_range; plumbing;
  repeat match goal with |- _ /\ _ => split end;
  first
    [ lia
    | nonneg
    | rewrite <- Zle_Qle; lia
    | apply actual_below_instances; [assumption | lia]
    | unfold std_nonneg in *; plumbing; first [assumption | eauto using stored_std_nonneg] ].

(* the ranges of the states that the hooks left, the earlier hook first *)
Ltac ranges_through_hooks :=
  repeat match goal with
         | H : in_range ?st -> in_range _ |- _ =>
             let P := fresh "Hpre" in
             assert (P : in_range st) by range_solver;
             specialize (H P); clear P;
             destruct H as (? & ? & ? & ? & ? & ? & ? & ?)
         end.

Lemma update_keeps_in_range :
  update_hooks_stay_within keeps_in_range hooks ->
  forall y, stays_within keeps_in_range (update np_sqrt y).
Proof.
  intros (Hdrift & Hwarning & Hnormal & Hcheck) y s.
  unfold stays_within, keeps_in_range in *.
  intros (Hn & Hnm & Ha0 & Han & Hm & Hv & Hl & Hstd).
  unfold update. unfold_M.
  repeat branch; z_facts; ran Hdrift Hwarning Hnormal Hcheck;
    ranges_through_hooks; range_solver.
Qed.

Lemma reset_keeps_in_range :
  stays_within keeps_in_range super_reset ->
  stays_within keeps_in_range _reset.
Proof.
  intros Hsuper s H0. specialize (Hsuper s H0).
  unfold _reset. unfold bind at 1.
  destruct (super_reset s) as [s0 [e|[]]]; [exact Hsuper|].
  simpl in Hsuper. destruct Hsuper as (Hn & Hnm & Ha0 & Han & Hm & Hv & Hl & Hstd).
  unfold_M. cbn. unfold in_range; cbn.
  repeat split; try assumption; try apply Qle_refl; try lia.
  now apply inject_Z_nonneg.
Qed.

(** X15. [update] and [_reset] keep the attributes in range, whether they
    return or raise: the two counters are not negative,
    0 <= actual_distance_error <= num_instances, mean, variance and level
    are not negative, and neither is an assigned std_distance_error (the
    hooks being assumed to keep this). *)
Theorem attributes_stay_in_range :
  update_hooks_stay_within keeps_in_range hooks ->
  stays_within keeps_in_range super_reset ->
  (forall y s, in_range s -> in_range (fst (update np_sqrt y s))) /\
  (forall s, in_range s -> in_range (fst (_reset s))).
Proof.
  intros Hhooks Hsuper. split.
  - intros y s. exact (update_keeps_in_range Hhooks y s).
  - intros s. exact (reset_keeps_in_range Hsuper s).
Qed.




(** *** A well-formed call returns *)






(** *** The histories *)

Lemma selection_agrees (y y_pred : Labels) (idxs : list nat) (l2 l3 : list Label) :
  misclassified_idxs y y_pred = inr (Some idxs) ->
  np_take y idxs = inr l2 -> np_take y_pred idxs = inr l3 ->
  l2 = l3.
Proof.
  unfold misclassified_idxs, np_not_equal, np_argwhere.
  destruct (length y =? length y_pred)%nat eqn:Elen.
  - destruct (first_row _) as [[]|row] eqn:E; try discriminate.
    intro H. injection H as <-.
    destruct (first_row_argwhere _ _ _ E) as (i & -> & Hi).
    destruct (nth_error_equal_labels _ _ _ Hi) as (a & Ha & Hb).
    simpl. rewrite Ha, Hb. congruence.
  - destruct y as [|a [|a' y]]; destruct y_pred as [|b [|b' y_pred]];
      try discriminate.
    + (* one label against several predictions *)
      destruct (first_row _) as [[]|row] eqn:E; try discriminate.
      intro H. injection H as <-.
      destruct (first_row_argwhere _ _ _ E) as ([|i] & -> & Hi).
      * simpl in Hi. injection Hi as Hi. unfold label_ne in Hi.
        rewrite negb_involutive in Hi. apply Z.eqb_eq in Hi. subst b.
        simpl. congruence.
      * intros H2. simpl in H2. destruct i; discriminate H2.
    + (* several labels against one prediction *)
      destruct (first_row _) as [[]|row] eqn:E; try discriminate.
      intro H. injection H as <-.
      destruct (first_row_argwhere _ _ _ E) as ([|i] & -> & Hi).
      * simpl in Hi. injection Hi as Hi. unfold label_ne in Hi.
        rewrite negb_involutive in Hi. apply Z.eqb_eq in Hi. subst b.
        simpl. congruence.
      * intros _ H3. simpl in H3. destruct i; discriminate H3.
Qed.

(** X19. The two histories never differ.  What lines 415-416 append is the
    label and the prediction at the position that line 372 selected, where
    the two are equal; so if [ground_truth] and [predictions] hold the same
    values before a call of [update], they do after it, whatever the batch
    and whether the call returns or raises (the hooks being assumed to keep
    this). *)
Theorem histories_stay_equal (y : Labels) (s : EDDM) :
  update_hooks_stay_within keeps_histories_agreeing hooks ->
  histories_agree s ->
  histories_agree (fst (update np_sqrt y s)).
Proof.
  intros (Hdrift & Hwarning & Hnormal & Hcheck) Hagree.
  unfold stays_within, keeps_histories_agreeing, histories_agree in *.
  unfold update. unfold_M.
  repeat branch;
    try match goal with
        | Hidx : misclassified_idxs _ _ = inr (Some ?l),
          E2 : np_take _ ?l = inr ?l2, E3 : np_take _ ?l = inr ?l3 |- _ =>
            tryif constr_eq l2 l3 then fail
            else (assert (l2 = l3) by
                    first [ exact (selection_agrees _ _ _ _ _ Hidx E2 E3)
                          | symmetry; exact (selection_agrees _ _ _ _ _ Hidx E3 E2) ];
                  subst)
        end;
    ran Hdrift Hwarning Hnormal Hcheck; plumbing;
    repeat match goal with
           | H : ?P -> _ |- _ =>
               let Hp := fresh "Hpre" in
               assert (Hp : P) by congruence; specialize (H Hp); clear Hp
           end;
    congruence.
Qed.

(** *** The standard deviation *)

(** X21. An assigned [std_distance_error] is never negative.  Provided the
    hooks do not spoil it, every detector reached from construction by
    calls of [update] and [_reset], whether the calls return or raise,
    holds no value below 0 in [std_distance_error] (the setter at lines
    309-319 refuses one); the attribute may hold no value at all.  A
    response that [update] returns reports the value the detector holds,
    which is at least 0. *)
Theorem assigned_std_distance_error_nonneg :
  update_hooks_stay_within keeps_std_nonneg hooks ->
  stays_within keeps_std_nonneg super_reset ->
  (forall s, reachable np_sqrt s -> std_nonneg s) /\
  (forall s y s' r, reachable np_sqrt s -> update np_sqrt y s = (s', inr r) ->
     std_distance_error s' = Some (r_std_distance_error r) /\
     0 <= r_std_distance_error r).
Proof.
  intros Hhooks Hsuper.
  assert (inv : forall s, reachable np_sqrt s -> std_nonneg s).
  { intros s R. induction R as [b|y s R IH|s R IH].
    - apply std_nonneg_init.
    - exact (update_keeps_std_nonneg np_sqrt Hhooks y s IH).
    - exact (reset_keeps_std_nonneg Hsuper s IH). }
  split; [exact inv|].
  intros s y s' r R E.
  pose proof (update_reports_std np_sqrt y s) as Hr. rewrite E in Hr.
  split; [exact Hr|].
  pose proof (inv _ (reach_update np_sqrt y s R)) as Hs'.
  rewrite E in Hs'. exact (Hs' _ Hr).
Qed.

(* the statistics of a hook's output, in terms of its input *)
Ltac statistics_through_hooks :=
  repeat match goal with H : _ /\ _ |- _ => destruct H end;
  repeat match goal with
         | H : num_misclassified_instances ?e = _ |- _ =>
             is_var e; rewrite H in *; clear H
         | H : variance_distance_error ?e = _ |- _ => is_var e; rewrite H in *; clear H
         | H : std_distance_error ?e = _ |- _ => is_var e; rewrite H in *; clear H
         end.

(** X22. A call of [update] that finds a right prediction and returns
    leaves [std_distance_error] assigned: it is
    [np.sqrt(variance_distance_error / num_misclassified_instances)] of the
    variance and the counter that the detector holds after the call, the
    counter is at least 1, the value has passed the guard of its setter, so
    it is at least 0, and the response reports it (the hooks being assumed
    to leave the counter, the variance and the deviation alone). *)
Theorem update_assigns_std
    (y : Labels) (s s' : EDDM) (r : Response)
    (X : Features) (y_pred : Labels) (rest : list (Features * Labels))
    (idxs : list nat) :
  update_hooks_stay_within same_statistics hooks ->
  delayed_predictions (base s) = (X, y_pred) :: rest ->
  misclassified_idxs y y_pred = inr (Some idxs) ->
  update np_sqrt y s = (s', inr r) ->
  let root := np_sqrt (variance_distance_error s'
                       / inject_Z (num_misclassified_instances s')) in
  std_distance_error s' = Some root /\
  r_std_distance_error r = root /\
  0 <= root /\
  (1 <= num_misclassified_instances s')%Z.
Proof.
  intros (Hdrift & Hwarning & Hnormal & Hcheck) Hbuf Hidx.
  unfold stays_within, same_statistics in *.
  returned_cases; head_of_buffer Hbuf; try congruence;
    z_facts; ran Hdrift Hwarning Hnormal Hcheck; plumbing;
    cbn [r_std_distance_error]; statistics_through_hooks.
  all: try lia.
  all: repeat match goal with
              | H : Some _ = Some _ |- _ => injection H as <-
              end.
  all: repeat split; first [reflexivity | lia | apply guard_nonneg; assumption].
Qed.

End MoreDetectorFacts.


(** ** The further properties at concrete inputs *)


Lemma fresh_detector_in_range (y_pred : Labels) : in_range (fresh_detector y_pred).
Proof.
  unfold in_range, fresh_detector. simpl.
  repeat split; try lia; try (unfold Qle; simpl; lia).
  intros v H. discriminate H.
Qed.

(* the idle hooks meet what is assumed of hooks *)
Ltac idle :=
  unfold update_hooks_stay_within, update_hooks_return,
    update_hooks_raise_no_guard_error, stays_within, keeps_in_range,
    keeps_std_assigned, keeps_threshold_below_maximum, keeps_std_nonneg,
    keeps_histories_agreeing, same_statistics, same_bookkeeping;
  repeat first
    [ assumption | reflexivity
    | intro; cbn [fst idle_hooks _drift_case _warning_case _normal_case
                  _check_drift_insufficient_samples ret]
    | split ];
  cbn in *; unfold ret in *; first [ congruence | eauto ].

Lemma drift_implies_warning_witness :
  match update sqrt_floor (hooks := idle_hooks) [1%Z] (after_first_batch example_config) with
  | (_, inr r) => drift r = true /\ warning r = true
  | (_, inl _) => False
  end.
Proof.
  destruct (update sqrt_floor (hooks := idle_hooks) [1%Z] (after_first_batch example_config))
    as [s' [e|r]] eqn:E.
  - vm_compute in E. discriminate E.
  - assert (Hd : drift r = true)
      by (vm_compute in E; injection E as _ <-; reflexivity).
    split; [exact Hd|].
    exact (@drift_implies_warning sqrt_floor idle_hooks _ _ _ _ E Hd).
Defined.

Lemma response_reports_final_state_witness :
  match update sqrt_floor (hooks := idle_hooks) [1%Z] (after_first_batch example_config) with
  | (s', inr r) => r_mean_distance_error r = mean_distance_error s'
  | (_, inl _) => False
  end.
Proof.
  destruct (update sqrt_floor (hooks := idle_hooks) [1%Z] (after_first_batch example_config))
    as [s' [e|r]] eqn:E.
  - vm_compute in E. discriminate E.
  - exact (proj1 (proj2 (proj2
             (@response_reports_final_state sqrt_floor idle_hooks _ _ _ _ E)))).
Defined.


Lemma no_alarm_below_minimum_counts_witness :
  match update sqrt_floor (hooks := idle_hooks) [1; 1; 1]%Z (fresh_detector [1; 1; 1]%Z) with
  | (_, inr r) => drift r = false /\ warning r = false
  | (_, inl _) => False
  end.
Proof.
  destruct (update sqrt_floor (hooks := idle_hooks) [1; 1; 1]%Z (fresh_detector [1; 1; 1]%Z))
    as [s' [e|r]] eqn:E.
  - vm_compute in E. discriminate E.
  - apply (@no_alarm_below_minimum_counts sqrt_floor idle_hooks
             [1; 1; 1]%Z (fresh_detector [1; 1; 1]%Z) s' r
             [[0]; [0]; [0]] [1; 1; 1]%Z [] eq_refl
             ltac:(left; vm_compute; reflexivity) E).
Defined.

Lemma update_consumes_oldest_batch_witness :
  delayed_predictions
    (base (fst (update sqrt_floor (hooks := idle_hooks) ten_ones
                  (example_detector example_config))))
    = [([[0]], [1%Z])] /\
  num_instances
    (base (fst (update sqrt_floor (hooks := idle_hooks) ten_ones
                  (example_detector example_config))))
    = (0 + Z.of_nat (length ten_ones))%Z.
Proof.
  apply (@update_consumes_oldest_batch sqrt_floor idle_hooks ten_ones
           (example_detector example_config) ten_rows ten_ones [([[0]], [1%Z])]).
  - idle.
  - reflexivity.
  - reflexivity.
Defined.

Lemma threshold_never_exceeds_maximum_witness :
  finite_level (after_first_batch example_config) /\
  threshold_below_maximum (after_first_batch example_config).
Proof.
  apply (proj1 (proj2 (@threshold_never_exceeds_maximum sqrt_floor idle_hooks
                         ltac:(idle) ltac:(intros s H; exact H)))).
  - exists 0.5. reflexivity.
  - exists 0. split; reflexivity.
Defined.

Lemma early_return_reads_std_witness :
  update sqrt_floor (hooks := idle_hooks) [0; 0]%Z (fresh_detector [1; 1]%Z) =
    (with_base (store_num_instances (0 + Z.of_nat (length [1; 1]%Z)))
       (with_base (store_delayed_predictions []) (fresh_detector [1; 1]%Z)),
     inl (AttributeError "_std_distance_error")).
Proof.
  apply (@early_return_reads_std sqrt_floor idle_hooks [0; 0]%Z
           (fresh_detector [1; 1]%Z) [[0]; [0]] [1; 1]%Z []); reflexivity.
Defined.

Lemma attributes_stay_in_range_witness :
  in_range (fst (update sqrt_floor (hooks := idle_hooks) [1; 1; 1]%Z
                   (fresh_detector [1; 1; 1]%Z))).
Proof.
  apply (proj1 (@attributes_stay_in_range sqrt_floor idle_hooks
                  ltac:(idle) ltac:(intros s H; exact H))).
  apply fresh_detector_in_range.
Defined.



Lemma histories_stay_equal_witness :
  histories_agree (fst (update sqrt_floor (hooks := idle_hooks) ten_ones
                          (example_detector example_config))).
Proof.
  apply (@histories_stay_equal sqrt_floor idle_hooks).
  - idle.
  - reflexivity.
Defined.

Lemma assigned_std_distance_error_nonneg_witness :
  std_nonneg (after_first_batch example_config).
Proof.
  apply (proj1 (@assigned_std_distance_error_nonneg sqrt_floor idle_hooks
                  ltac:(idle) ltac:(intros s H; exact H))).
  apply (@reach_update sqrt_floor idle_hooks), reach_init.
Defined.

Lemma update_assigns_std_witness :
  match update sqrt_floor (hooks := idle_hooks) [0; 1; 1]%Z (fresh_detector [1; 1; 1]%Z) with
  | (s', inr r) =>
      std_distance_error s'
        = Some (sqrt_floor (variance_distance_error s'
                            / inject_Z (num_misclassified_instances s'))) /\
      r_std_distance_error r
        = sqrt_floor (variance_distance_error s'
                      / inject_Z (num_misclassified_instances s'))
  | (_, inl _) => False
  end.
Proof.
  destruct (update sqrt_floor (hooks := idle_hooks) [0; 1; 1]%Z (fresh_detector [1; 1; 1]%Z))
    as [s' [e|r]] eqn:E.
  - vm_compute in E. discriminate E.
  - destruct (@update_assigns_std sqrt_floor idle_hooks
                [0; 1; 1]%Z (fresh_detector [1; 1; 1]%Z) s' r
                [[0]; [0]; [0]] [1; 1; 1]%Z [] [1%nat]
                ltac:(idle) eq_refl eq_refl E) as (H1 & H2 & _).
    split; [exact H1 | exact H2].
Defined.
